(** * TradingAgents command-line front end: model and properties

    A shallow embedding of [cli/utils.py], [tradingagents/default_config.py]
    and the configuration assembly of [main.py].

    Conventions of the model.
    - A Python [str] is a Rocq [string].  The string methods the program
      calls ([strip], [upper], [lower]) and the regular-expression class
      [\d] are given by their values on the ASCII range; a character of
      code 128 or more stands for a symbol that is neither whitespace, nor
      a decimal digit, nor a cased letter.
    - A Python [dict] with string keys is a [gmap string pyval].
    - Interactive code is a tree of prompts ([prog]); running it against
      the keys a user presses yields the console trace and the outcome
      (a returned value, [exit(code)], or an uncaught exception). *)

From Stdlib Require Import ZArith String Ascii List Bool Lia.
From stdpp Require Import gmap strings list fin_maps.
Import ListNotations.

Local Open Scope string_scope.
Local Open Scope Z_scope.

(* ===================================================================== *)
(** * Python values and string methods *)
(* ===================================================================== *)

Module Py.

(** The values that travel through the configuration code. *)
#[warnings="-register-all"]
Inductive pyval : Type :=
| PNone
| PBool (b : bool)
| PInt (z : Z)
| PStr (s : string)
| PDict (d : gmap string pyval).

(** The exceptions the modelled code can leave uncaught. *)
Inductive exn : Type :=
| KeyError (key : string)
| AttributeError (attr : string)
| ValueError (msg : string).

(** Python truthiness, [bool(x)]. *)
Class Truthy (A : Type) := truthy : A -> bool.

#[global] Instance truthy_bool : Truthy bool := fun b => b.
#[global] Instance truthy_string : Truthy string :=
  fun s => match s with EmptyString => false | String _ _ => true end.
#[global] Instance truthy_list {A} : Truthy (list A) :=
  fun l => match l with [] => false | _ :: _ => true end.
#[global] Instance truthy_dict {V} : Truthy (gmap string V) :=
  fun d => negb (bool_decide (d = ∅)).
#[global] Instance truthy_option {A} `{Truthy A} : Truthy (option A) :=
  fun o => match o with None => false | Some a => truthy a end.
#[global] Instance truthy_pyval : Truthy pyval :=
  fun v => match v with
           | PNone => false
           | PBool b => b
           | PInt z => negb (z =? 0)
           | PStr s => truthy s
           | PDict d => truthy d
           end.

(** A dict display [{k1: v1, ...}]: the items are stored left to right,
    a later item replacing an earlier one with the same key. *)
Definition dict_of {V} (items : list (string * V)) : gmap string V :=
  fold_left (fun d kv => <[kv.1 := kv.2]> d) items ∅.

(** [v == s] for a string literal [s]. *)
Definition eq_str (v : pyval) (s : string) : bool :=
  match v with PStr t => String.eqb t s | _ => false end.

(** The line feed and the horizontal tab, which string literals cannot
    spell. *)
Definition LF : ascii := ascii_of_nat 10.
Definition TAB : ascii := ascii_of_nat 9.
Definition nl : string := String LF EmptyString.
Definition tab : string := String TAB EmptyString.

Definition code (c : ascii) : Z := Z.of_N (N_of_ascii c).

(** [str.isspace] on one character: TAB, LF, VT, FF, CR, the four
    separators FS GS RS US, and the space. *)
Definition isspace (c : ascii) : bool :=
  let n := code c in
  ((9 <=? n) && (n <=? 13)) || ((28 <=? n) && (n <=? 31)) || (n =? 32).

(** [\d] and [str.isdigit] on one character. *)
Definition isdigit (c : ascii) : bool :=
  let n := code c in (48 <=? n) && (n <=? 57).

Definition islower (c : ascii) : bool :=
  let n := code c in (97 <=? n) && (n <=? 122).

Definition isupper (c : ascii) : bool :=
  let n := code c in (65 <=? n) && (n <=? 90).

Definition toupper (c : ascii) : ascii :=
  if islower c then ascii_of_N (Z.to_N (code c - 32)) else c.

Definition tolower (c : ascii) : ascii :=
  if isupper c then ascii_of_N (Z.to_N (code c + 32)) else c.

Fixpoint map_chars (f : ascii -> ascii) (s : string) : string :=
  match s with
  | EmptyString => EmptyString
  | String c s' => String (f c) (map_chars f s')
  end.

(** [s.upper()] and [s.lower()]. *)
Definition upper (s : string) : string := map_chars toupper s.
Definition lower (s : string) : string := map_chars tolower s.

(** [s.lstrip()], [s.rstrip()] and [s.strip()] with no argument. *)
Fixpoint lstrip (s : string) : string :=
  match s with
  | EmptyString => EmptyString
  | String c s' => if isspace c then lstrip s' else s
  end.

Fixpoint rstrip (s : string) : string :=
  match s with
  | EmptyString => EmptyString
  | String c s' =>
      match rstrip s' with
      | EmptyString => if isspace c then EmptyString else String c EmptyString
      | r => String c r
      end
  end.

Definition strip (s : string) : string := rstrip (lstrip s).

(** [len(s)]. *)
Definition len (s : string) : Z := Z.of_nat (String.length s).

(** The first and the last character of a string, when it has one. *)
Definition first_char (s : string) : option ascii :=
  match s with EmptyString => None | String c _ => Some c end.

Fixpoint last_char (s : string) : option ascii :=
  match s with
  | EmptyString => None
  | String c EmptyString => Some c
  | String _ s' => last_char s'
  end.

Fixpoint all_chars (p : ascii -> bool) (s : string) : bool :=
  match s with
  | EmptyString => true
  | String c s' => p c && all_chars p s'
  end.

(** [int(s)] for a string of decimal digits. *)
Fixpoint digits_value (acc : Z) (s : string) : option Z :=
  match s with
  | EmptyString => Some acc
  | String c s' =>
      if isdigit c then digits_value (10 * acc + (code c - 48)) s' else None
  end.

Definition int (s : string) : option Z :=
  match strip s with
  | EmptyString => None
  | t => digits_value 0 t
  end.

End Py.

(* ===================================================================== *)
(** * The fragment of [re] that the program and [strptime] use *)
(* ===================================================================== *)

Module Re.
Import Py.

Inductive regex : Type :=
| Eps
| Bol                                   (* ^ *)
| Eol                                   (* $ *)
| Digit                                 (* \d *)
| Lit (c : ascii)
| Range (lo hi : ascii)                 (* [lo-hi] *)
| Seq (r1 r2 : regex)
| Alt (r1 r2 : regex)                   (* r1|r2 *)
| Group (name : string) (r : regex).    (* (?P<name>r) *)

(** [r{n}]. *)
Fixpoint rep (n : nat) (r : regex) : regex :=
  match n with
  | O => Eps
  | S n' => Seq r (rep n' r)
  end.

(** Concatenation of a list of expressions. *)
Fixpoint cat (rs : list regex) : regex :=
  match rs with
  | [] => Eps
  | r :: rs' => Seq r (cat rs')
  end.

Definition in_range (lo hi c : ascii) : bool :=
  (code lo <=? code c) && (code c <=? code hi).

(** A match object: where the match ends and the named groups. *)
Record match_obj : Type := MatchObj {
  m_end : nat;
  m_groups : list (string * string)
}.

#[global] Instance truthy_match : Truthy match_obj := fun _ => true.

Definition group (m : match_obj) (name : string) : option string :=
  snd <$> List.find (fun g => String.eqb (fst g) name) (m_groups m).

(** Backtracking matcher in continuation-passing style: [pos] characters
    of the subject are consumed, [s] is what remains.  Alternatives are
    tried left to right, and the first that lets the rest of the pattern
    match wins, as in Python's engine.  [$] without [re.MULTILINE] holds
    at the end of the subject and just before a final line feed. *)
Fixpoint run {T} (r : regex) (pos : nat) (s : string)
    (caps : list (string * string))
    (k : nat -> string -> list (string * string) -> option T) : option T :=
  match r with
  | Eps => k pos s caps
  | Bol => if Nat.eqb pos 0 then k pos s caps else None
  | Eol => if String.eqb s "" || String.eqb s nl then k pos s caps else None
  | Digit =>
      match s with
      | String c s' => if isdigit c then k (S pos) s' caps else None
      | EmptyString => None
      end
  | Lit a =>
      match s with
      | String c s' => if Ascii.eqb c a then k (S pos) s' caps else None
      | EmptyString => None
      end
  | Range lo hi =>
      match s with
      | String c s' => if in_range lo hi c then k (S pos) s' caps else None
      | EmptyString => None
      end
  | Seq r1 r2 =>
      run r1 pos s caps (fun pos' s' caps' => run r2 pos' s' caps' k)
  | Alt r1 r2 =>
      match run r1 pos s caps k with
      | Some m => Some m
      | None => run r2 pos s caps k
      end
  | Group name r1 =>
      run r1 pos s caps (fun pos' s' caps' =>
        k pos' s' ((name, String.substring 0 (Nat.sub pos' pos) s) :: caps'))
  end.

(** [re.match(r, s)]: a match anchored at the start of [s]. *)
Definition re_match (r : regex) (s : string) : option match_obj :=
  run r 0%nat s [] (fun pos _ caps => Some (MatchObj pos caps)).

End Re.

(* ===================================================================== *)
(** * [datetime.strptime] for the directives [%Y], [%m] and [%d] *)
(* ===================================================================== *)

Module Datetime.
Import Py Re.

(** [datetime._is_leap] and [datetime._days_in_month]. *)
Definition is_leap (year : Z) : bool :=
  (year mod 4 =? 0) && (negb (year mod 100 =? 0) || (year mod 400 =? 0)).

Definition DAYS_IN_MONTH : list Z :=
  [31; 28; 31; 30; 31; 30; 31; 31; 30; 31; 30; 31].

Definition days_in_month (year month : Z) : Z :=
  if (month =? 2) && is_leap year then 29
  else nth (Z.to_nat (month - 1)) DAYS_IN_MONTH 0.

Definition MINYEAR : Z := 1.
Definition MAXYEAR : Z := 9999.

(** [datetime.date(year, month, day)]: the checks of the constructor.
    [inl msg] stands for [raise ValueError(msg)]. *)
Definition date (year month day : Z) : string + (Z * Z * Z) :=
  if negb ((MINYEAR <=? year) && (year <=? MAXYEAR)) then
    inl "year is out of range"
  else if negb ((1 <=? month) && (month <=? 12)) then
    inl "month must be in 1..12"
  else if negb ((1 <=? day) && (day <=? days_in_month year month)) then
    inl "day is out of range for month"
  else inr (year, month, day).

(** The entries of [_strptime.TimeRE] for the three directives. *)
Definition directive (d : ascii) : option regex :=
  if Ascii.eqb d "Y" then Some (Group "Y" (rep 4 Digit))
  else if Ascii.eqb d "m" then
    Some (Group "m" (Alt (Seq (Lit "1") (Range "0" "2"))
                    (Alt (Seq (Lit "0") (Range "1" "9"))
                         (Range "1" "9"))))
  else if Ascii.eqb d "d" then
    Some (Group "d" (Alt (Seq (Lit "3") (Range "0" "1"))
                    (Alt (Seq (Range "1" "2") Digit)
                    (Alt (Seq (Lit "0") (Range "1" "9"))
                    (Alt (Range "1" "9")
                         (Seq (Lit " ") (Range "1" "9")))))))
  else None.

(** [TimeRE.pattern]: literal characters stand for themselves, a
    directive is replaced by its expression. *)
Fixpoint pattern (format : string) : option regex :=
  match format with
  | EmptyString => Some Eps
  | String c rest =>
      if Ascii.eqb c "%" then
        match rest with
        | String d rest' =>
            match directive d, pattern rest' with
            | Some r, Some r' => Some (Seq r r')
            | _, _ => None
            end
        | EmptyString => None
        end
      else Seq (Lit c) <$> pattern rest
  end.

(** [int(found_dict[name])], or the default of a field the format lacks. *)
Definition group_int (m : match_obj) (name : string) (default : Z) : Z :=
  match group m name with
  | Some g => match int g with Some z => z | None => default end
  | None => default
  end.

(** [datetime.strptime(data_string, format)], to the date found: the
    subject must match the format's expression, nothing may be left
    after the match, and the fields must name a day of the calendar. *)
Definition strptime (data_string format : string) : string + (Z * Z * Z) :=
  match pattern format with
  | None => inl "bad directive in format"
  | Some format_regex =>
      match re_match format_regex data_string with
      | None => inl "time data does not match format"
      | Some found =>
          if negb (Nat.eqb (String.length data_string) (m_end found)) then
            inl "unconverted data remains"
          else
            let year := group_int found "Y" 1900 in
            let month := group_int found "m" 1 in
            let day := group_int found "d" 1 in
            date year month day
      end
  end.

End Datetime.

(* ===================================================================== *)
(** * [os.path] on a POSIX host and [os.getenv] *)
(* ===================================================================== *)

Module Os.
Import Py.

Definition sep : ascii := "/".

Definition isabs (s : string) : bool :=
  match s with String c _ => Ascii.eqb c sep | EmptyString => false end.

Definition endswith_sep (s : string) : bool :=
  match last_char s with Some c => Ascii.eqb c sep | None => false end.

(** [posixpath.join(a, b)]. *)
Definition join (a b : string) : string :=
  if isabs b then b
  else if negb (truthy a) || endswith_sep a then a +:+ b
  else a +:+ String sep b.

(** [p[:p.rfind('/') + 1]]: the part of [p] up to its last separator. *)
Fixpoint upto_last_sep (p : string) : string :=
  match p with
  | EmptyString => EmptyString
  | String c p' =>
      match upto_last_sep p' with
      | EmptyString => if Ascii.eqb c sep then String c EmptyString else EmptyString
      | h => String c h
      end
  end.

(** [s.rstrip('/')]. *)
Fixpoint rstrip_sep (s : string) : string :=
  match s with
  | EmptyString => EmptyString
  | String c s' =>
      match rstrip_sep s' with
      | EmptyString => if Ascii.eqb c sep then EmptyString else String c EmptyString
      | r => String c r
      end
  end.

(** [posixpath.dirname(p)]. *)
Definition dirname (p : string) : string :=
  let head := upto_last_sep p in
  if truthy head && negb (all_chars (Ascii.eqb sep) head)
  then rstrip_sep head else head.

(** [s.split('/')]. *)
Fixpoint split (s : string) : list string :=
  match s with
  | EmptyString => [EmptyString]
  | String c s' =>
      if Ascii.eqb c sep then EmptyString :: split s'
      else match split s' with
           | h :: t => String c h :: t
           | [] => [String c EmptyString]
           end
  end.

Definition startswith (pre s : string) : bool := String.prefix pre s.

(** The loop body of [posixpath.normpath]. *)
Definition normpath_step (initial_slashes : nat) (new_comps : list string)
    (comp : string) : list string :=
  if String.eqb comp "" || String.eqb comp "." then new_comps
  else if negb (String.eqb comp "..")
          || (Nat.eqb initial_slashes 0 && negb (truthy new_comps))
          || (truthy new_comps
              && bool_decide (List.last new_comps "" = ".."))
  then (new_comps ++ [comp])%list
  else if truthy new_comps then removelast new_comps
  else new_comps.

(** [posixpath.normpath(path)]. *)
Definition normpath (path : string) : string :=
  if String.eqb path "" then "."
  else
    let initial_slashes : nat :=
      if startswith "/" path then
        if startswith "//" path && negb (startswith "///" path)
        then 2%nat else 1%nat
      else 0%nat in
    let comps := fold_left (normpath_step initial_slashes) (split path) [] in
    let path' := String.concat "/" comps in
    let path'' :=
      match initial_slashes with
      | O => path'
      | S O => "/" +:+ path'
      | _ => "//" +:+ path'
      end in
    if truthy path'' then path'' else ".".

(** The part of the process state that the configuration module sees:
    the environment variables, the working directory, and the path the
    module was loaded from ([__file__]). *)
Record host : Type := Host {
  environ : gmap string string;
  cwd : string;
  module_file : string
}.

(** [posixpath.abspath(path)]. *)
Definition abspath (h : host) (path : string) : string :=
  normpath (if isabs path then path else join (cwd h) path).

(** A computation that may read environment variables; it returns its
    value with the names of the variables it looked up, in order. *)
Definition Env (A : Type) : Type := gmap string string -> A * list string.

Definition ret {A} (a : A) : Env A := fun _ => (a, []).

Definition bind {A B} (m : Env A) (f : A -> Env B) : Env B :=
  fun env =>
    let '(a, r1) := m env in
    let '(b, r2) := f a env in
    (b, (r1 ++ r2)%list).

(** [os.getenv(key, default)]. *)
Definition getenv (key default : string) : Env string :=
  fun env => (match env !! key with Some v => v | None => default end, [key]).

End Os.

(* ===================================================================== *)
(** * [tradingagents/default_config.py] *)
(* ===================================================================== *)

Module DefaultConfig.
Import Py Os.

Local Notation "'let*' x ':=' m 'in' k" := (bind m (fun x => k))
  (at level 10, x name, m at level 100, k at level 200).

(** The module body: the value bound to [DEFAULT_CONFIG], with the
    environment variables read while evaluating it. *)
Definition DEFAULT_CONFIG_eval (h : host) : Env (gmap string pyval) :=
  let* project_dir :=
    ret (abspath h (join (dirname (module_file h)) ".")) in
  let* results_dir := getenv "TRADINGAGENTS_RESULTS_DIR" "./results" in
  let* data_cache_dir :=
    ret (join (abspath h (join (dirname (module_file h)) "."))
              "dataflows/data_cache") in
  ret (dict_of
    [ ("project_dir", PStr project_dir);
      ("results_dir", PStr results_dir);
      ("data_dir", PStr "/Users/yluo/Documents/Code/ScAI/FR1-data");
      ("data_cache_dir", PStr data_cache_dir);
      ("llm_provider", PStr "openai");
      ("deep_think_llm", PStr "deepseek-r1-250528");
      ("quick_think_llm", PStr "doubao-seed-1-6-flash-250615");
      ("backend_url", PStr "https://ark.cn-beijing.volces.com/api/v3");
      ("max_debate_rounds", PInt 1);
      ("max_risk_discuss_rounds", PInt 1);
      ("max_recur_limit", PInt 1000);
      ("online_tools", PBool true) ]).

Definition DEFAULT_CONFIG (h : host) : gmap string pyval :=
  fst (DEFAULT_CONFIG_eval h (environ h)).

(** The environment variables that evaluating the module looks up. *)
Definition env_reads (h : host) : list string :=
  snd (DEFAULT_CONFIG_eval h (environ h)).

End DefaultConfig.

(* ===================================================================== *)
(** * Prompts, console output and process exit *)
(* ===================================================================== *)

Module Console.
Import Py.

(** What a validator passed to a prompt answers: [True], or the message
    shown to the user while the input is refused. *)
Inductive verdict : Type :=
| Valid
| Invalid (why : string).

(** [b or "message"]. *)
Definition or_msg (b : bool) (why : string) : verdict :=
  if b then Valid else Invalid why.

Definition accepted (v : verdict) : bool :=
  match v with Valid => true | Invalid _ => false end.

(** The [questionary] prompts, indexed by the type of the value [ask()]
    gives back when the user does not cancel.  The [style] and
    [instruction] arguments change the rendering only and are left
    out. *)
Inductive question : Type -> Type :=
| text (message default : string) (validate : string -> verdict)
    : question string
| confirm (message : string) (default : bool) : question bool
| select {V : Type} (message : string) (choices : list (string * V))
    : question V
| checkbox {V : Type} (message : string) (choices : list (string * V))
    (validate : list V -> verdict) : question (list V).

Definition message_of {R} (q : question R) : string :=
  match q with
  | text m _ _ => m
  | confirm m _ => m
  | select m _ => m
  | checkbox m _ _ => m
  end.

(** A validator that lets everything through (no [validate] argument). *)
Definition no_validate {A} : A -> verdict := fun _ => Valid.

(** A piece of a printed line: literal text, or a value interpolated by
    an f-string. *)
Inductive piece : Type :=
| Txt (s : string)
| Val (v : pyval).

(** The result of running a function to its end. *)
Inductive outcome (A : Type) : Type :=
| Returned (a : A)
| Exited (status : Z)
| Raised (e : exn).
Arguments Returned {A} a.
Arguments Exited {A} status.
Arguments Raised {A} e.

(** Interactive programs.  [Ask q k] shows the prompt [q] and continues
    with what [ask()] returned ([None] after a cancel).
    Modelled from the spec: [cli.config_manager] is not among the
    sources; [ListConfigs] and [SelectSavedConfig] stand for its
    [list_configs()] and [select_saved_config()], an opaque collaborator
    that yields a listing and a value: a configuration-shaped mapping, or
    [None]. *)
Inductive prog (A : Type) : Type :=
| Ret (a : A)
| Exit (status : Z)
| Raise (e : exn)
| Print (line : list piece) (k : prog A)
| Ask {R : Type} (q : question R) (k : option R -> prog A)
| ListConfigs (k : list string -> prog A)
| SelectSavedConfig (k : pyval -> prog A).
Arguments Ret {A} a.
Arguments Exit {A} status.
Arguments Raise {A} e.
Arguments Print {A} line k.
Arguments Ask {A R} q k.
Arguments ListConfigs {A} k.
Arguments SelectSavedConfig {A} k.

Fixpoint bind {A B} (p : prog A) (f : A -> prog B) : prog B :=
  match p with
  | Ret a => f a
  | Exit c => Exit c
  | Raise e => Raise e
  | Print l k => Print l (bind k f)
  | Ask q k => Ask q (fun r => bind (k r) f)
  | ListConfigs k => ListConfigs (fun r => bind (k r) f)
  | SelectSavedConfig k => SelectSavedConfig (fun r => bind (k r) f)
  end.

(** [questionary.<prompt>(...).ask()], [console.print(...)], [exit(n)]. *)
Definition ask {R} (q : question R) : prog (option R) := Ask q Ret.
Definition print (line : list piece) : prog unit := Print line (Ret tt).
Definition list_configs : prog (list string) := ListConfigs Ret.
Definition select_saved_config : prog pyval := SelectSavedConfig Ret.

(** [d[key]]. *)
Definition getitem {A} (d : gmap string A) (key : string) : prog A :=
  match d !! key with
  | Some v => Ret v
  | None => Raise (KeyError key)
  end.

(** What the user does at a prompt. *)
Inductive input : Type :=
| Cancel                      (* Ctrl-C *)
| Enter                       (* accept what the prompt shows *)
| Submit (s : string)         (* type [s], then Enter *)
| Yes
| No
| Pick (i : nat)              (* move to choice [i], then Enter *)
| Check (sel : list nat).     (* tick the choices [sel], then Enter *)

(** What [ask()] gave back, as recorded in the trace. *)
Inductive answer : Type :=
| ANone
| AStr (s : string)
| ABool (b : bool)
| APicked (i : nat)
| AChecked (sel : list nat).

(** What the run showed on the console. *)
Inductive event : Type :=
| Printed (line : list piece)
| Asked (message : string) (got : answer).

(** The ticked choices, in the order the prompt lists them. *)
Fixpoint ticked {V} (i : nat) (choices : list (string * V)) (sel : list nat)
    : list (nat * V) :=
  match choices with
  | [] => []
  | (_, v) :: rest =>
      if existsb (Nat.eqb i) sel then (i, v) :: ticked (S i) rest sel
      else ticked (S i) rest sel
  end.

(** One user action at the prompt [q]: either the prompt ends, with the
    value of [ask()], or the action is refused and the prompt stays. *)
Definition react {R} (q : question R) (i : input)
    : option (option R * answer) :=
  match q in question R return option (option R * answer) with
  | text _ default validate =>
      let submit s :=
        if accepted (validate s) then Some (Some s, AStr s) else None in
      match i with
      | Cancel => Some (None, ANone)
      | Enter => submit default
      | Submit s => submit s
      | _ => None
      end
  | confirm _ default =>
      match i with
      | Cancel => Some (None, ANone)
      | Enter => Some (Some default, ABool default)
      | Yes => Some (Some true, ABool true)
      | No => Some (Some false, ABool false)
      | _ => None
      end
  | select _ choices =>
      let pick n :=
        match nth_error choices n with
        | Some (_, v) => Some (Some v, APicked n)
        | None => None
        end in
      match i with
      | Cancel => Some (None, ANone)
      | Enter => pick O
      | Pick n => pick n
      | _ => None
      end
  | checkbox _ choices validate =>
      let submit sel :=
        let got := ticked O choices sel in
        if accepted (validate (snd <$> got))
        then Some (Some (snd <$> got), AChecked (fst <$> got)) else None in
      match i with
      | Cancel => Some (None, ANone)
      | Enter => submit []
      | Check sel => submit sel
      | _ => None
      end
  end.

(** The prompt stays on screen until an action ends it. *)
Fixpoint await {R} (q : question R) (ins : list input)
    : option (option R * answer * list input) :=
  match ins with
  | [] => None
  | i :: rest =>
      match react q i with
      | Some (r, a) => Some (r, a, rest)
      | None => await q rest
      end
  end.

(** The saved-configuration store as the collaborator reports it. *)
Record store : Type := Store {
  listing : list string;
  chosen : pyval
}.

(** Running a program against the user's actions: the console trace,
    and the outcome if the run came to an end ([None]: a prompt is
    still waiting for input). *)
Fixpoint interp {A} (st : store) (p : prog A) (ins : list input)
    : list event * option (outcome A) :=
  match p with
  | Ret a => ([], Some (Returned a))
  | Exit c => ([], Some (Exited c))
  | Raise e => ([], Some (Raised e))
  | Print l k =>
      let '(tr, o) := interp st k ins in (Printed l :: tr, o)
  | Ask q k =>
      match await q ins with
      | None => ([], None)
      | Some (r, a, rest) =>
          let '(tr, o) := interp st (k r) rest in
          (Asked (message_of q) a :: tr, o)
      end
  | ListConfigs k => interp st (k (listing st)) ins
  | SelectSavedConfig k => interp st (k (chosen st)) ins
  end.

(** An answer that is [None] or falsy. *)
Definition empty_answer (a : answer) : bool :=
  match a with
  | ANone => true
  | AStr s => negb (truthy s)
  | ABool b => negb b
  | APicked _ => false
  | AChecked sel => negb (truthy sel)
  end.

End Console.

(* ===================================================================== *)
(** * [cli/utils.py] *)
(* ===================================================================== *)

Module Utils.
Import Py Re Datetime Console.

Local Notation "'let*' x ':=' m 'in' k" := (bind m (fun x => k))
  (at level 10, x name, m at level 100, k at level 200).
Local Notation "m ;; k" := (bind m (fun _ => k))
  (at level 100, k at level 200, right associativity).

(** Modelled from the spec: [cli.models.AnalystType] is not among the
    sources; the spec gives the enumeration as the four roles market,
    social, news and fundamentals. *)
Inductive AnalystType : Type :=
| MARKET
| SOCIAL
| NEWS
| FUNDAMENTALS.

#[global] Instance AnalystType_eq_dec : EqDecision AnalystType.
Proof. solve_decision. Defined.

Definition ANALYST_ORDER : list (string * AnalystType) :=
  [ ("Market Analyst", MARKET);
    ("Social Media Analyst", SOCIAL);
    ("News Analyst", NEWS);
    ("Fundamentals Analyst", FUNDAMENTALS) ].

(** ** [get_ticker] *)

Definition ticker_question : question string :=
  text "Enter the ticker symbol to analyze:" ""
    (fun x => or_msg (0 <? len (strip x))
                "Please enter a valid ticker symbol.").

Definition get_ticker : prog string :=
  let* ticker := ask ticker_question in
  match ticker with
  | Some t =>
      if negb (truthy t) then
        print [Txt (nl +:+ "[red]No ticker symbol provided. Exiting...[/red]")] ;;
        Exit 1
      else Ret (upper (strip t))
  | None =>
      print [Txt (nl +:+ "[red]No ticker symbol provided. Exiting...[/red]")] ;;
      Exit 1
  end.

(** ** [get_analysis_date] *)

(** [r"^\d{4}-\d{2}-\d{2}$"]. *)
Definition date_pattern : regex :=
  cat [Bol; rep 4 Digit; Lit "-"; rep 2 Digit; Lit "-"; rep 2 Digit; Eol].

Definition validate_date (date_str : string) : bool :=
  if negb (truthy (re_match date_pattern date_str)) then false
  else
    match strptime date_str "%Y-%m-%d" with
    | inr _ => true
    | inl _ => false                      (* except ValueError *)
    end.

Definition date_question : question string :=
  text "Enter the analysis date (YYYY-MM-DD):" ""
    (fun x => or_msg (validate_date (strip x))
                "Please enter a valid date in YYYY-MM-DD format.").

Definition get_analysis_date : prog string :=
  let* date := ask date_question in
  match date with
  | Some d =>
      if negb (truthy d) then
        print [Txt (nl +:+ "[red]No date provided. Exiting...[/red]")] ;;
        Exit 1
      else Ret (strip d)
  | None =>
      print [Txt (nl +:+ "[red]No date provided. Exiting...[/red]")] ;;
      Exit 1
  end.

(** ** [select_analysts] *)

Definition analysts_question : question (list AnalystType) :=
  checkbox "Select Your [Analysts Team]:"
    ((fun '(display, value) => (display, value)) <$> ANALYST_ORDER)
    (fun x => or_msg (0 <? Z.of_nat (length x))
                "You must select at least one analyst.").

Definition select_analysts : prog (list AnalystType) :=
  let* choices := ask analysts_question in
  match choices with
  | Some l =>
      if negb (truthy l) then
        print [Txt (nl +:+ "[red]No analysts selected. Exiting...[/red]")] ;;
        Exit 1
      else Ret l
  | None =>
      print [Txt (nl +:+ "[red]No analysts selected. Exiting...[/red]")] ;;
      Exit 1
  end.

(** ** [select_research_depth] *)

Definition DEPTH_OPTIONS : list (string * Z) :=
  [ ("Shallow - Quick research, few debate and strategy discussion rounds", 1);
    ("Medium - Middle ground, moderate debate rounds and strategy discussion", 3);
    ("Deep - Comprehensive research, in depth debate and strategy discussion", 5) ].

Definition depth_question : question Z :=
  select "Select Your [Research Depth]:"
    ((fun '(display, value) => (display, value)) <$> DEPTH_OPTIONS).

Definition select_research_depth : prog Z :=
  let* choice := ask depth_question in
  match choice with
  | None =>
      print [Txt (nl +:+ "[red]No research depth selected. Exiting...[/red]")] ;;
      Exit 1
  | Some c => Ret c
  end.

(** ** [get_custom_openai_config] *)

(** The triple the provider selection hands to the model selection. *)
Definition provider_info : Type := string * string * gmap string pyval.

Definition custom_url_question : question string :=
  text "Enter custom API base URL:" "https://api.your-provider.com/v1"
    no_validate.

Definition custom_quick_question : question string :=
  text "Enter quick-thinking model name:" "gpt-4o-mini" no_validate.

Definition custom_deep_question : question string :=
  text "Enter deep-thinking model name:" "gpt-4o" no_validate.

Definition get_custom_openai_config : prog provider_info :=
  print [Txt (nl +:+ "[bold cyan]Custom OpenAI Compatible API Configuration[/bold cyan]")] ;;
  let* custom_url := ask custom_url_question in
  match custom_url with
  | Some url =>
      if negb (truthy url) then
        print [Txt (nl +:+ "[red]No URL provided. Exiting...[/red]")] ;;
        Exit 1
      else
        let* custom_quick_model := ask custom_quick_question in
        let* custom_deep_model := ask custom_deep_question in
        match custom_quick_model, custom_deep_model with
        | Some quick, Some deep =>
            if negb (truthy quick) || negb (truthy deep) then
              print [Txt (nl +:+ "[red]Model names are required. Exiting...[/red]")] ;;
              Exit 1
            else
              print [Txt "[green]Custom OpenAI Config:[/green]"] ;;
              print [Txt "  URL: "; Val (PStr url)] ;;
              print [Txt "  Quick Model: "; Val (PStr quick)] ;;
              print [Txt "  Deep Model: "; Val (PStr deep)] ;;
              Ret ("custom_openai", url,
                   dict_of [ ("type", PStr "custom_openai");
                             ("quick_model", PStr quick);
                             ("deep_model", PStr deep) ])
        | _, _ =>
            print [Txt (nl +:+ "[red]Model names are required. Exiting...[/red]")] ;;
            Exit 1
        end
  | None =>
      print [Txt (nl +:+ "[red]No URL provided. Exiting...[/red]")] ;;
      Exit 1
  end.

(** ** [select_llm_provider] *)

Definition BASE_URLS : list (string * string * gmap string pyval) :=
  [ ("Default Config", "default", dict_of [("type", PStr "default")]);
    ("OpenAI", "https://api.openai.com/v1", dict_of [("type", PStr "preset")]);
    ("Custom OpenAI Compatible", "custom_openai",
       dict_of [("type", PStr "custom_openai")]);
    ("Anthropic", "https://api.anthropic.com/", dict_of [("type", PStr "preset")]);
    ("Google", "https://generativelanguage.googleapis.com/v1",
       dict_of [("type", PStr "preset")]);
    ("Openrouter", "https://openrouter.ai/api/v1", dict_of [("type", PStr "preset")]);
    ("Ollama", "http://localhost:11434/v1", dict_of [("type", PStr "preset")]) ].

Definition provider_question : question provider_info :=
  select "Select your LLM Provider:"
    ((fun '(display, value, metadata) => (display, (display, value, metadata)))
       <$> BASE_URLS).

Definition saved_question : question bool :=
  confirm "Would you like to use a saved configuration?" false.

(** The part of [select_llm_provider] below the saved-configuration
    offer. *)
Definition choose_provider : prog provider_info :=
  let* choice := ask provider_question in
  match choice with
  | None =>
      print [Txt (nl +:+ "[red]No LLM provider selected. Exiting...[/red]")] ;;
      Exit 1
  | Some (display_name, url, metadata) =>
      let* ty := getitem metadata "type" in
      if eq_str ty "default" then
        print [Txt "[green]Using default configuration from DEFAULT_CONFIG[/green]"] ;;
        Ret ("default", "default", dict_of [("type", PStr "default")])
      else
        let* ty := getitem metadata "type" in
        if eq_str ty "custom_openai" then get_custom_openai_config
        else
          print [Txt "You selected: "; Val (PStr display_name);
                 Txt (tab +:+ "URL: "); Val (PStr url)] ;;
          Ret (display_name, url, dict_of [("type", PStr "preset")])
  end.

Definition select_llm_provider : prog provider_info :=
  let* configs := list_configs in
  if truthy configs then
    let* use_saved := ask saved_question in
    if truthy use_saved then
      let* saved_config := select_saved_config in
      if truthy saved_config then
        Ret ("saved_config", "saved_config",
             dict_of [ ("type", PStr "saved_config");
                       ("config", saved_config) ])
      else choose_provider
    else choose_provider
  else choose_provider.

(** ** [select_shallow_thinking_agent] *)

Definition SHALLOW_AGENT_OPTIONS : gmap string (list (string * string)) :=
  dict_of
  [ ("openai",
     [("GPT-4o-mini - Fast and efficient for quick tasks",
       "gpt-4o-mini");
      ("GPT-4.1-nano - Ultra-lightweight model for basic operations",
       "gpt-4.1-nano");
      ("GPT-4.1-mini - Compact model with good performance",
       "gpt-4.1-mini");
      ("GPT-4o - Standard model with solid capabilities",
       "gpt-4o")]);
    ("anthropic",
     [("Claude Haiku 3.5 - Fast inference and standard capabilities",
       "claude-3-5-haiku-latest");
      ("Claude Sonnet 3.5 - Highly capable standard model",
       "claude-3-5-sonnet-latest");
      ("Claude Sonnet 3.7 - Exceptional hybrid reasoning and agentic capabilities",
       "claude-3-7-sonnet-latest");
      ("Claude Sonnet 4 - High performance and excellent reasoning",
       "claude-sonnet-4-0")]);
    ("google",
     [("Gemini 2.0 Flash-Lite - Cost efficiency and low latency",
       "gemini-2.0-flash-lite");
      ("Gemini 2.0 Flash - Next generation features, speed, and thinking",
       "gemini-2.0-flash");
      ("Gemini 2.5 Flash - Adaptive thinking, cost efficiency",
       "gemini-2.5-flash-preview-05-20")]);
    ("openrouter",
     [("Meta: Llama 4 Scout",
       "meta-llama/llama-4-scout:free");
      ("Meta: Llama 3.3 8B Instruct - A lightweight and ultra-fast variant of Llama 3.3 70B",
       "meta-llama/llama-3.3-8b-instruct:free");
      ("google/gemini-2.0-flash-exp:free - Gemini Flash 2.0 offers a significantly faster time to first token",
       "google/gemini-2.0-flash-exp:free")]);
    ("ollama",
     [("llama3.1 local",
       "llama3.1");
      ("llama3.2 local",
       "llama3.2")]) ].

(** [saved_config.get(key, default)]: the receiver must be a dict. *)
Definition dict_get (receiver : pyval) (key : string) (default : pyval)
    : prog pyval :=
  match receiver with
  | PDict d => Ret (match d !! key with Some v => v | None => default end)
  | _ => Raise (AttributeError "get")
  end.

(** [receiver.get]: the attribute is looked up before the arguments of
    the call are evaluated. *)
Definition has_get (receiver : pyval) : prog unit :=
  match receiver with
  | PDict _ => Ret tt
  | _ => Raise (AttributeError "get")
  end.

Definition model_question (message : string)
    (options : list (string * string)) : question string :=
  select message ((fun '(display, value) => (display, value)) <$> options).

(** The function with its lookup table as a parameter; the table of the
    source is supplied below. *)
Definition select_shallow_thinking_agent_with
    (OPTIONS : gmap string (list (string * string)))
    (DEFAULT_CONFIG : gmap string pyval) (info : provider_info)
    : prog pyval :=
  let '(provider, url, metadata) := info in
  let* ty := getitem metadata "type" in
  if eq_str ty "default" then
    let* model := getitem DEFAULT_CONFIG "quick_think_llm" in
    print [Txt "[green]Using default quick-thinking model: "; Val model;
           Txt "[/green]"] ;;
    let* model := getitem DEFAULT_CONFIG "quick_think_llm" in
    Ret model
  else
  let* ty := getitem metadata "type" in
  if eq_str ty "custom_openai" then
    let* model := getitem metadata "quick_model" in
    print [Txt "[green]Using custom quick-thinking model: "; Val model;
           Txt "[/green]"] ;;
    let* model := getitem metadata "quick_model" in
    Ret model
  else
  let* ty := getitem metadata "type" in
  if eq_str ty "saved_config" then
    let* saved_config := getitem metadata "config" in
    has_get saved_config ;;
    let* default := getitem DEFAULT_CONFIG "quick_think_llm" in
    let* model := dict_get saved_config "quick_think_llm" default in
    print [Txt "[green]Using saved quick-thinking model: "; Val model;
           Txt "[/green]"] ;;
    Ret model
  else
  let provider_key := lower provider in
  match OPTIONS !! provider_key with
  | None =>
      print [Txt "[red]Unknown provider: "; Val (PStr provider);
             Txt ". Exiting...[/red]"] ;;
      Exit 1
  | Some options =>
      let* choice :=
        ask (model_question "Select Your [Quick-Thinking LLM Engine]:" options) in
      match choice with
      | None =>
          print [Txt (nl +:+ "[red]No shallow thinking llm engine selected. Exiting...[/red]")] ;;
          Exit 1
      | Some c => Ret (PStr c)
      end
  end.

Definition select_shallow_thinking_agent :=
  select_shallow_thinking_agent_with SHALLOW_AGENT_OPTIONS.

(** ** [select_deep_thinking_agent] *)

Definition DEEP_AGENT_OPTIONS : gmap string (list (string * string)) :=
  dict_of
  [ ("openai",
     [("GPT-4.1-nano - Ultra-lightweight model for basic operations",
       "gpt-4.1-nano");
      ("GPT-4.1-mini - Compact model with good performance",
       "gpt-4.1-mini");
      ("GPT-4o - Standard model with solid capabilities",
       "gpt-4o");
      ("o4-mini - Specialized reasoning model (compact)",
       "o4-mini");
      ("o3-mini - Advanced reasoning model (lightweight)",
       "o3-mini");
      ("o3 - Full advanced reasoning model",
       "o3");
      ("o1 - Premier reasoning and problem-solving model",
       "o1")]);
    ("anthropic",
     [("Claude Haiku 3.5 - Fast inference and standard capabilities",
       "claude-3-5-haiku-latest");
      ("Claude Sonnet 3.5 - Highly capable standard model",
       "claude-3-5-sonnet-latest");
      ("Claude Sonnet 3.7 - Exceptional hybrid reasoning and agentic capabilities",
       "claude-3-7-sonnet-latest");
      ("Claude Sonnet 4 - High performance and excellent reasoning",
       "claude-sonnet-4-0");
      ("Claude Opus 4 - Most powerful Anthropic model",
       tab +:+ "claude-opus-4-0")]);
    ("google",
     [("Gemini 2.0 Flash-Lite - Cost efficiency and low latency",
       "gemini-2.0-flash-lite");
      ("Gemini 2.0 Flash - Next generation features, speed, and thinking",
       "gemini-2.0-flash");
      ("Gemini 2.5 Flash - Adaptive thinking, cost efficiency",
       "gemini-2.5-flash-preview-05-20");
      ("Gemini 2.5 Pro",
       "gemini-2.5-pro-preview-06-05")]);
    ("openrouter",
     [("DeepSeek V3 - a 685B-parameter, mixture-of-experts model",
       "deepseek/deepseek-chat-v3-0324:free");
      ("Deepseek - latest iteration of the flagship chat model family from the DeepSeek team.",
       "deepseek/deepseek-chat-v3-0324:free")]);
    ("ollama",
     [("llama3.1 local",
       "llama3.1");
      ("qwen3",
       "qwen3")]) ].

Definition select_deep_thinking_agent_with
    (OPTIONS : gmap string (list (string * string)))
    (DEFAULT_CONFIG : gmap string pyval) (info : provider_info)
    : prog pyval :=
  let '(provider, url, metadata) := info in
  let* ty := getitem metadata "type" in
  if eq_str ty "default" then
    let* model := getitem DEFAULT_CONFIG "deep_think_llm" in
    print [Txt "[green]Using default deep-thinking model: "; Val model;
           Txt "[/green]"] ;;
    let* model := getitem DEFAULT_CONFIG "deep_think_llm" in
    Ret model
  else
  let* ty := getitem metadata "type" in
  if eq_str ty "custom_openai" then
    let* model := getitem metadata "deep_model" in
    print [Txt "[green]Using custom deep-thinking model: "; Val model;
           Txt "[/green]"] ;;
    let* model := getitem metadata "deep_model" in
    Ret model
  else
  let* ty := getitem metadata "type" in
  if eq_str ty "saved_config" then
    let* saved_config := getitem metadata "config" in
    has_get saved_config ;;
    let* default := getitem DEFAULT_CONFIG "deep_think_llm" in
    let* model := dict_get saved_config "deep_think_llm" default in
    print [Txt "[green]Using saved deep-thinking model: "; Val model;
           Txt "[/green]"] ;;
    Ret model
  else
  let provider_key := lower provider in
  match OPTIONS !! provider_key with
  | None =>
      print [Txt "[red]Unknown provider: "; Val (PStr provider);
             Txt ". Exiting...[/red]"] ;;
      Exit 1
  | Some options =>
      let* choice :=
        ask (model_question "Select Your [Deep-Thinking LLM Engine]:" options) in
      match choice with
      | None =>
          print [Txt (nl +:+ "[red]No deep thinking llm engine selected. Exiting...[/red]")] ;;
          Exit 1
      | Some c => Ret (PStr c)
      end
  end.

Definition select_deep_thinking_agent :=
  select_deep_thinking_agent_with DEEP_AGENT_OPTIONS.

End Utils.

(* ===================================================================== *)
(** * [main.py]: assembling the custom configuration *)
(* ===================================================================== *)

Module Main.
Import Py.

(** Dict objects live in a heap; a variable holds a reference. *)
Abbreviation ref := nat (only parsing).
Abbreviation heap := (list (gmap string pyval)) (only parsing).

(** [d.copy()]: a new dict object with the same items. *)
Definition dict_copy (d : ref) (hp : heap) : ref * heap :=
  match hp !! d with
  | Some items => (length hp, (hp ++ [items])%list)
  | None => (d, hp)
  end.

(** [d[key] = value]. *)
Definition setitem (d : ref) (key : string) (value : pyval) (hp : heap)
    : heap :=
  match hp !! d with
  | Some items => <[d := <[key := value]> items]> hp
  | None => hp
  end.

(** The assignments of lines 6 to 11, in order. *)
Definition overrides : list (string * pyval) :=
  [ ("llm_provider", PStr "openai");
    ("backend_url", PStr "https://ark.cn-beijing.volces.com/api/v3");
    ("deep_think_llm", PStr "deepseek-r1-250528");
    ("quick_think_llm", PStr "doubao-seed-1-6-flash-250615");
    ("max_debate_rounds", PInt 1);
    ("online_tools", PBool true) ].

(** Lines 5 to 11 given how line 5 binds [config]: the reference bound
    to [config] and the heap after the assignments. *)
Definition assemble (bind_config : ref -> heap -> ref * heap)
    (DEFAULT_CONFIG : ref) (hp : heap) : ref * heap :=
  let '(config, hp1) := bind_config DEFAULT_CONFIG hp in
  (config, fold_left (fun h kv => setitem config kv.1 kv.2 h) overrides hp1).

(** [config = DEFAULT_CONFIG.copy()] followed by the assignments. *)
Definition main_config : ref -> heap -> ref * heap := assemble dict_copy.

(** What the program would be with [config = DEFAULT_CONFIG]. *)
Definition alias (d : ref) (hp : heap) : ref * heap := (d, hp).

End Main.

(* ===================================================================== *)
(** * Vocabulary of the properties *)
(* ===================================================================== *)

Import Py Re Datetime Os DefaultConfig Console Utils Main.

(** [ask()] on the prompt [q] can give back [r], recorded as [a]. *)
Definition admissible {R} (q : question R) (r : option R) (a : answer) : Prop :=
  exists i, react q i = Some (r, a).

(** Every completed run of [p] satisfies [Q]: a predicate transformer that
    follows the program and, at each prompt, all the values that [ask()]
    can give back. *)
Fixpoint every_run {A} (st : store) (p : prog A)
    (Q : list event -> outcome A -> Prop) : Prop :=
  match p with
  | Ret a => Q [] (Returned a)
  | Exit c => Q [] (Exited c)
  | Raise e => Q [] (Raised e)
  | Print l k => every_run st k (fun tr o => Q (Printed l :: tr) o)
  | Ask q k =>
      forall r a, admissible q r a ->
        every_run st (k r) (fun tr o => Q (Asked (message_of q) a :: tr) o)
  | ListConfigs k => every_run st (k (listing st)) Q
  | SelectSavedConfig k => every_run st (k (chosen st)) Q
  end.

(** The line [get_ticker] prints before it gives up. *)
Definition no_ticker_line : list piece :=
  [Txt (nl +:+ "[red]No ticker symbol provided. Exiting...[/red]")].

(** The run ends in [exit(status)] with a nonzero status, and the last
    thing on the console is a printed line. *)
Definition exit_after_message {A} (tr : list event) (o : outcome A) : Prop :=
  (exists status, o = Exited status /\ status <> 0) /\
  (exists tr' line, tr = (tr' ++ [Printed line])%list).

(** A prompt whose answer was [None] or falsy; [skip] names the prompts
    that are not counted. *)
Definition gave_up (skip : string -> bool) (e : event) : bool :=
  match e with
  | Asked m a => empty_answer a && negb (skip m)
  | Printed _ => false
  end.

(** No prompt is left out. *)
Definition nowhere : string -> bool := fun _ => false.

(** The offer of a saved configuration. *)
Definition at_saved_offer : string -> bool :=
  fun m => String.eqb m (message_of saved_question).

(** If a counted prompt of the run got an empty or cancelled answer, the
    run ended by a line and a nonzero exit status. *)
Definition stops_when_given_up (skip : string -> bool) {A}
    (tr : list event) (o : outcome A) : Prop :=
  existsb (gave_up skip) tr = true -> exit_after_message tr o.

(** Once a counted prompt of [p] got an empty or cancelled answer, the run
    can only end by printing a line and leaving with a nonzero status, and
    it does end (at the latest when the prompts still to come are
    cancelled). *)
Definition aborts_on_empty_answer (skip : string -> bool) {A} (p : prog A)
    : Prop :=
  forall st ins tr o,
    interp st p ins = (tr, o) ->
    existsb (gave_up skip) tr = true ->
    (forall o', o = Some o' -> exit_after_message tr o') /\
    (exists n tr' o',
        interp st p (ins ++ repeat Cancel n)%list = (tr', Some o') /\
        exit_after_message tr' o').

(** The last event of a trace is a printed line. *)
Definition ends_with_line (tr : list event) : bool :=
  match List.last tr (Asked "" ANone) with
  | Printed _ => true
  | Asked _ _ => false
  end.

(** The keys of the default configuration, in the order of the module. *)
Definition CONFIG_KEYS : list string :=
  [ "project_dir"; "results_dir"; "data_dir"; "data_cache_dir";
    "llm_provider"; "deep_think_llm"; "quick_think_llm"; "backend_url";
    "max_debate_rounds"; "max_risk_discuss_rounds"; "max_recur_limit";
    "online_tools" ].

(** The value of [results_dir] under the environment [env]. *)
Definition results_dir_of (env : gmap string string) : string :=
  match env !! "TRADINGAGENTS_RESULTS_DIR" with
  | Some v => v
  | None => "./results"
  end.

(** The directory of the configuration module. *)
Definition project_dir_of (h : host) : string :=
  abspath h (join (dirname (module_file h)) ".").

(** The host [h] with its environment replaced by [env]. *)
Definition with_environ (env : gmap string string) (h : host) : host :=
  Host env (cwd h) (module_file h).

(** The keys that lines 6 to 11 assign. *)
Definition overridden : list string := fst <$> overrides.

(** The items of a dict after the assignments of [overrides]. *)
Definition overridden_items (items : gmap string pyval) : gmap string pyval :=
  fold_left (fun d kv => <[kv.1 := kv.2]> d) overrides items.

(** The line printed when a model is taken without a prompt. *)
Definition using_line (what : string) (model : pyval) : list piece :=
  [Txt ("[green]Using " +:+ what +:+ " model: "); Val model; Txt "[/green]"].

(** The line printed for a provider the lookup table does not have. *)
Definition unknown_provider_line (provider : string) : list piece :=
  [Txt "[red]Unknown provider: "; Val (PStr provider); Txt ". Exiting...[/red]"].

(** [d.get(key, default)]. *)
Definition get_or (d : gmap string pyval) (key : string) (default : pyval)
    : pyval :=
  match d !! key with Some v => v | None => default end.

(** The values of the ["type"] entry of a metadata dict. *)
Definition PROVIDER_KINDS : list string :=
  ["default"; "preset"; "custom_openai"; "saved_config"].

(** The presets of [BASE_URLS]: display name and base URL. *)
Definition PRESETS : list (string * string) :=
  [ ("OpenAI", "https://api.openai.com/v1");
    ("Anthropic", "https://api.anthropic.com/");
    ("Google", "https://generativelanguage.googleapis.com/v1");
    ("Openrouter", "https://openrouter.ai/api/v1");
    ("Ollama", "http://localhost:11434/v1") ].

(** The four shapes of a triple that the provider selection hands on. *)
Definition provider_shape (info : provider_info) : Prop :=
  (exists config,
      truthy config = true /\
      info = ("saved_config", "saved_config",
              dict_of [("type", PStr "saved_config"); ("config", config)])) \/
  info = ("default", "default", dict_of [("type", PStr "default")]) \/
  (exists url quick deep,
      url <> "" /\ quick <> "" /\ deep <> "" /\
      info = ("custom_openai", url,
              dict_of [("type", PStr "custom_openai");
                       ("quick_model", PStr quick);
                       ("deep_model", PStr deep)])) \/
  (exists display url,
      (display, url) ∈ PRESETS /\
      info = (display, url, dict_of [("type", PStr "preset")])).

(** A run that returns, returns a value that satisfies [P]. *)
Definition returns_shaped {A} (P : A -> Prop) (tr : list event) (o : outcome A)
    : Prop :=
  forall a, o = Returned a -> P a.

(** [date_str] matches [^\d{4}-\d{2}-\d{2}$]. *)
Definition matches_date_pattern (date_str : string) : Prop :=
  is_Some (re_match date_pattern date_str).

(** [datetime.strptime(date_str, "%Y-%m-%d")] returns a date. *)
Definition parses_as_date (date_str : string) : Prop :=
  exists d, strptime date_str "%Y-%m-%d" = inr d.

(** The value of a decimal digit. *)
Definition digit_of (c : ascii) : Z := code c - 48.

(** The fields of a string of the form [dddd-dd-dd]. *)
Definition iso_fields (s : string) : option (Z * Z * Z) :=
  match s with
  | String y1 (String y2 (String y3 (String y4 (String h1
      (String m1 (String m2 (String h2 (String d1 (String d2 EmptyString))))))))) =>
      if forallb isdigit [y1; y2; y3; y4; m1; m2; d1; d2]
         && Ascii.eqb h1 "-" && Ascii.eqb h2 "-"
      then Some (1000 * digit_of y1 + 100 * digit_of y2 + 10 * digit_of y3 + digit_of y4,
                 10 * digit_of m1 + digit_of m2,
                 10 * digit_of d1 + digit_of d2)
      else None
  | _ => None
  end.

(** The string has the form [YYYY-MM-DD] and names a day of the proleptic
    Gregorian calendar, years 1 to 9999. *)
Definition is_calendar_date (s : string) : bool :=
  match iso_fields s with
  | Some (y, m, d) =>
      (1 <=? y) && ((1 <=? m) && (m <=? 12)) && (1 <=? d)
      && (d <=? days_in_month y m)
  | None => false
  end.

(** The characters that [\d] matches. *)
Definition DIGITS : list ascii :=
  ["0"; "1"; "2"; "3"; "4"; "5"; "6"; "7"; "8"; "9"]%char.

(** The expressions of the three directives and of the whole format. *)
Definition YEAR : regex := Group "Y" (rep 4 Digit).
Definition MONTH : regex :=
  Group "m" (Alt (Seq (Lit "1") (Range "0" "2"))
            (Alt (Seq (Lit "0") (Range "1" "9")) (Range "1" "9"))).
Definition DAY : regex :=
  Group "d" (Alt (Seq (Lit "3") (Range "0" "1"))
            (Alt (Seq (Range "1" "2") Digit)
            (Alt (Seq (Lit "0") (Range "1" "9"))
            (Alt (Range "1" "9") (Seq (Lit " ") (Range "1" "9")))))).

(** The continuation of [re_match]. *)
Definition found : nat -> string -> list (string * string) -> option match_obj :=
  fun pos _ caps => Some (MatchObj pos caps).

(** The ranges that the expressions of [%m] and [%d] admit. *)
Definition in_1_12 (m : Z) : bool := (1 <=? m) && (m <=? 12).
Definition in_1_31 (d : Z) : bool := (1 <=? d) && (d <=? 31).
Definition in_1_9 (d : Z) : bool := (1 <=? d) && (d <=? 9).

(** The numbers that four and two digits spell. *)
Definition year_of (y1 y2 y3 y4 : ascii) : Z :=
  1000 * digit_of y1 + 100 * digit_of y2 + 10 * digit_of y3 + digit_of y4.
Definition two_of (c1 c2 : ascii) : Z := 10 * digit_of c1 + digit_of c2.

(** The lines the prompt functions print before they give up. *)
Definition no_depth_line : list piece :=
  [Txt (nl +:+ "[red]No research depth selected. Exiting...[/red]")].
Definition no_date_line : list piece :=
  [Txt (nl +:+ "[red]No date provided. Exiting...[/red]")].
Definition no_analysts_line : list piece :=
  [Txt (nl +:+ "[red]No analysts selected. Exiting...[/red]")].

Definition no_shallow_line : list piece :=
  [Txt (nl +:+ "[red]No shallow thinking llm engine selected. Exiting...[/red]")].
Definition no_deep_line : list piece :=
  [Txt (nl +:+ "[red]No deep thinking llm engine selected. Exiting...[/red]")].

(** A run of a model selection on a preset provider with the models
    [options] on offer under the prompt [message]: the model picked is
    returned, or the prompt was cancelled and the run printed [line] and
    left with status 1. *)
Definition picks_a_model (message : string) (options : list (string * string))
    (line : list piece) (tr : list event) (o : outcome pyval) : Prop :=
  (exists n display model,
      nth_error options n = Some (display, model) /\
      tr = [Asked message (APicked n)] /\ o = Returned (PStr model)) \/
  (tr = [Asked message ANone; Printed line] /\ o = Exited 1).

(** The triples of [select_llm_provider], the saved one tied to the store
    it came from. *)
Definition provider_from (st : store) (info : provider_info) : Prop :=
  (truthy (chosen st) = true /\
   info = ("saved_config", "saved_config",
           dict_of [("type", PStr "saved_config"); ("config", chosen st)])) \/
  info = ("default", "default", dict_of [("type", PStr "default")]) \/
  (exists url quick deep,
      url <> "" /\ quick <> "" /\ deep <> "" /\
      info = ("custom_openai", url,
              dict_of [("type", PStr "custom_openai");
                       ("quick_model", PStr quick);
                       ("deep_model", PStr deep)])) \/
  (exists display url,
      (display, url) ∈ PRESETS /\
      info = (display, url, dict_of [("type", PStr "preset")])).

(** The run returned a model without a prompt, or the one prompt it showed
    was cancelled. *)
Definition selects_or_cancels (message : string) (line : list piece)
    (tr : list event) (o : outcome pyval) : Prop :=
  (exists model, o = Returned model) \/
  (tr = [Asked message ANone; Printed line] /\ o = Exited 1).

(* ===================================================================== *)
(** * Properties *)
(* ===================================================================== *)

(** ** Runs of interactive programs *)

Lemma await_admissible {R} (q : question R) ins r a rest :
  await q ins = Some (r, a, rest) -> admissible q r a.
Proof.
  induction ins as [|i ins IH]; cbn [await]; [discriminate|].
  destruct (react q i) as [[r' a']|] eqn:E.
  - intros [= -> -> ->]. now exists i.
  - exact IH.
Qed.

Lemma every_run_sound {A} st (p : prog A) Q :
  every_run st p Q ->
  forall ins tr o, interp st p ins = (tr, Some o) -> Q tr o.
Proof.
  revert Q. induction p as [a|c|e|l k IH|R q k IH|k IH|k IH];
    intros Q HQ ins tr o; cbn [interp every_run] in *.
  - now intros [= <- <-].
  - now intros [= <- <-].
  - now intros [= <- <-].
  - destruct (interp st k ins) as [tr' o'] eqn:E. intros [= <- ->].
    exact (IH _ HQ _ _ _ E).
  - destruct (await q ins) as [[[r a] rest]|] eqn:E; [|discriminate].
    destruct (interp st (k r) rest) as [tr' o'] eqn:E'. intros [= <- ->].
    exact (IH r _ (HQ r a (await_admissible _ _ _ _ _ E)) _ _ _ E').
  - apply IH, HQ.
  - apply IH, HQ.
Qed.

Lemma every_run_weaken {A} st (p : prog A) (Q Q' : list event -> outcome A -> Prop) :
  (forall tr o, Q tr o -> Q' tr o) -> every_run st p Q -> every_run st p Q'.
Proof.
  revert Q Q'. induction p as [a|c|e|l k IH|R q k IH|k IH|k IH];
    intros Q Q' HQ; cbn [every_run]; eauto.
  - apply IH. intros tr o. apply HQ.
  - intros H r a Ha. eapply IH; [|exact (H r a Ha)]. intros tr o. apply HQ.
Qed.

(** Every prompt yields to [Cancel]. *)
Lemma react_Cancel {R} (q : question R) : react q Cancel = Some (None, ANone).
Proof. now destruct q. Qed.

Lemma await_app {R} (q : question R) ins more r a rest :
  await q ins = Some (r, a, rest) ->
  await q (ins ++ more)%list = Some (r, a, (rest ++ more)%list).
Proof.
  induction ins as [|i ins IH]; cbn [await app]; [discriminate|].
  destruct (react q i) as [[r' a']|]; [now intros [= -> -> ->]|exact IH].
Qed.

Lemma await_None_app {R} (q : question R) ins more :
  await q ins = None -> await q (ins ++ more)%list = await q more.
Proof.
  induction ins as [|i ins IH]; cbn [await app]; [reflexivity|].
  destruct (react q i) as [[r' a']|]; [discriminate|exact IH].
Qed.

(** More input does not change a run that has come to its end. *)
Lemma interp_done_app {A} st (p : prog A) ins more tr o :
  interp st p ins = (tr, Some o) -> interp st p (ins ++ more)%list = (tr, Some o).
Proof.
  revert ins tr. induction p as [a|c|e|l k IH|R q k IH|k IH|k IH];
    intros ins tr; cbn [interp]; try easy.
  - destruct (interp st k ins) as [tr' o'] eqn:E. intros [= <- ->].
    now rewrite (IH _ _ E).
  - destruct (await q ins) as [[[r a] rest]|] eqn:E; [|discriminate].
    destruct (interp st (k r) rest) as [tr' o'] eqn:E'. intros [= <- ->].
    now rewrite (await_app _ _ more _ _ _ E), (IH _ _ _ E').
  - apply IH.
  - apply IH.
Qed.

(** A run that waits at a prompt keeps its trace as a prefix when more
    input arrives. *)
Lemma interp_pending_app {A} st (p : prog A) ins more tr :
  interp st p ins = (tr, None) ->
  exists tr', fst (interp st p (ins ++ more)%list) = (tr ++ tr')%list.
Proof.
  revert ins tr. induction p as [a|c|e|l k IH|R q k IH|k IH|k IH];
    intros ins tr; cbn [interp]; try easy.
  - destruct (interp st k ins) as [tr0 o0] eqn:E. intros [= <- ->].
    destruct (IH _ _ E) as [tr' Htr'].
    destruct (interp st k (ins ++ more)%list) as [tr1 o1]. cbn in *. subst tr1.
    now exists tr'.
  - destruct (await q ins) as [[[r a] rest]|] eqn:E.
    + destruct (interp st (k r) rest) as [tr0 o0] eqn:E'. intros [= <- ->].
      rewrite (await_app _ _ more _ _ _ E).
      destruct (IH _ _ _ E') as [tr' Htr'].
      destruct (interp st (k r) (rest ++ more)%list) as [tr1 o1]. cbn in *.
      subst tr1. now exists tr'.
    + intros [= <-]. eexists. reflexivity.
  - apply IH.
  - apply IH.
Qed.

(** Every run can be brought to its end: cancelling the prompts that are
    still to come is enough. *)
Lemma interp_completes {A} st (p : prog A) ins :
  exists n tr o, interp st p (ins ++ repeat Cancel n)%list = (tr, Some o).
Proof.
  revert ins. induction p as [a|c|e|l k IH|R q k IH|k IH|k IH];
    intros ins; cbn [interp].
  - now exists O, [], (Returned a).
  - now exists O, [], (Exited c).
  - now exists O, [], (Raised e).
  - destruct (IH ins) as (n & tr & o & E). exists n. rewrite E. eauto.
  - destruct (await q ins) as [[[r a] rest]|] eqn:E.
    + destruct (IH r rest) as (n & tr & o & E'). exists n.
      rewrite (await_app _ _ _ _ _ _ E), E'. eauto.
    + destruct (IH None []) as (n & tr & o & E'). exists (S n).
      rewrite (await_None_app _ _ _ E). cbn [repeat await].
      rewrite react_Cancel. cbn [app] in E'. rewrite E'. eauto.
  - apply IH.
  - apply IH.
Qed.

(** What [ask()] can give back, prompt by prompt. *)
Lemma admissible_text m d v r a :
  admissible (text m d v) r a ->
  (r = None /\ a = ANone) \/
  (exists s, r = Some s /\ a = AStr s /\ accepted (v s) = true).
Proof.
  intros [i Hi]. destruct i; cbn [react] in Hi; try discriminate.
  - injection Hi as <- <-. now left.
  - destruct (accepted (v d)) eqn:E; [|discriminate].
    injection Hi as <- <-. right. eauto.
  - destruct (accepted (v s)) eqn:E; [|discriminate].
    injection Hi as <- <-. right. eauto.
Qed.

Lemma admissible_confirm m d r a :
  admissible (confirm m d) r a ->
  (r = None /\ a = ANone) \/ (exists b, r = Some b /\ a = ABool b).
Proof.
  intros [i Hi]. destruct i; cbn [react] in Hi; try discriminate;
    injection Hi as <- <-; eauto.
Qed.

Lemma admissible_select {V} m (choices : list (string * V)) r a :
  admissible (select m choices) r a ->
  (r = None /\ a = ANone) \/
  (exists n d v, nth_error choices n = Some (d, v) /\ r = Some v /\ a = APicked n).
Proof.
  intros [i Hi]. destruct i; cbn [react] in Hi; try discriminate.
  - injection Hi as <- <-. now left.
  - destruct (nth_error choices 0) as [[d v]|] eqn:E; [|discriminate].
    injection Hi as <- <-. right. now exists O, d, v.
  - destruct (nth_error choices i) as [[d v]|] eqn:E; [|discriminate].
    injection Hi as <- <-. right. now exists i, d, v.
Qed.

Lemma admissible_checkbox {V} m (choices : list (string * V)) v r a :
  admissible (checkbox m choices v) r a ->
  (r = None /\ a = ANone) \/
  (exists sel, r = Some (snd <$> ticked O choices sel) /\
               a = AChecked (fst <$> ticked O choices sel) /\
               accepted (v (snd <$> ticked O choices sel)) = true).
Proof.
  intros [i Hi]. destruct i; cbn [react] in Hi; try discriminate.
  - injection Hi as <- <-. now left.
  - destruct (accepted _) eqn:E; [|discriminate].
    injection Hi as <- <-. right. now exists [].
  - destruct (accepted _) eqn:E; [|discriminate].
    injection Hi as <- <-. right. now exists sel.
Qed.

(** ** Facts about the string methods *)

Lemma isspace_toupper c : isspace (toupper c) = isspace c.
Proof. destruct c as [[] [] [] [] [] [] [] []]; reflexivity. Qed.

Lemma islower_toupper c : islower (toupper c) = false.
Proof. destruct c as [[] [] [] [] [] [] [] []]; reflexivity. Qed.

Lemma first_char_lstrip s c :
  first_char (lstrip s) = Some c -> isspace c = false.
Proof.
  induction s as [|c' s IH]; cbn [lstrip]; [discriminate|].
  destruct (isspace c') eqn:E; [exact IH|].
  cbn [first_char]. now intros [= <-].
Qed.

Lemma last_char_rstrip s c :
  last_char (rstrip s) = Some c -> isspace c = false.
Proof.
  induction s as [|c' s IH]; cbn [rstrip]; [discriminate|].
  destruct (rstrip s) as [|c'' r] eqn:E.
  - destruct (isspace c') eqn:E'; [discriminate|].
    cbn [last_char]. now intros [= <-].
  - exact IH.
Qed.

Lemma first_char_rstrip s c :
  first_char (rstrip s) = Some c -> first_char s = Some c.
Proof.
  destruct s as [|c' s]; cbn [rstrip]; [discriminate|].
  destruct (rstrip s); [destruct (isspace c')|]; cbn [first_char]; congruence.
Qed.

Lemma first_char_strip s c : first_char (strip s) = Some c -> isspace c = false.
Proof.
  intros H. apply first_char_rstrip in H. exact (first_char_lstrip _ _ H).
Qed.

Lemma last_char_strip s c : last_char (strip s) = Some c -> isspace c = false.
Proof. apply last_char_rstrip. Qed.

Lemma first_char_upper s : first_char (upper s) = toupper <$> first_char s.
Proof. now destruct s. Qed.

Lemma last_char_upper s : last_char (upper s) = toupper <$> last_char s.
Proof.
  induction s as [|c s IH]; [reflexivity|].
  destruct s as [|c' s]; [reflexivity|]. exact IH.
Qed.

Lemma upper_no_lower s : all_chars (fun c => negb (islower c)) (upper s) = true.
Proof.
  induction s as [|c s IH]; [reflexivity|].
  cbn [upper map_chars all_chars]. now rewrite islower_toupper.
Qed.

Lemma upper_empty s : upper s = "" <-> s = "".
Proof. now destruct s. Qed.

Lemma len_pos s : (0 <? len s) = true <-> s <> "".
Proof.
  unfold len. destruct s; cbn [String.length]; rewrite Z.ltb_lt; split;
    try easy; lia.
Qed.

Lemma strip_nonempty s : strip s <> "" -> s <> "".
Proof. now intros H ->. Qed.

Lemma truthy_nonempty (s : string) : truthy s = true <-> s <> "".
Proof. now destruct s. Qed.

(** ** [get_ticker] *)

(** The two ways a run of [get_ticker] ends. *)
Lemma get_ticker_runs st :
  every_run st get_ticker (fun tr o =>
    (exists x, tr = [Asked (message_of ticker_question) (AStr x)] /\
               strip x <> "" /\ o = Returned (upper (strip x))) \/
    (tr = [Asked (message_of ticker_question) ANone; Printed no_ticker_line] /\
     o = Exited 1)).
Proof.
  unfold get_ticker, ask, ticker_question. cbn [bind every_run].
  intros r a [[-> ->]|(x & -> & -> & Hx)]%admissible_text.
  - cbn [bind print every_run]. now right.
  - unfold or_msg in Hx.
    destruct (0 <? len (strip x)) eqn:E; [|discriminate].
    apply len_pos in E.
    rewrite (proj2 (truthy_nonempty x) (strip_nonempty _ E)).
    cbn [negb every_run]. left. now exists x.
Qed.



(** ** Empty and cancelled answers *)

Lemma exit_after_message_intro {A} tr :
  ends_with_line tr = true -> @exit_after_message A tr (Exited 1).
Proof.
  intros H. split; [now exists 1|].
  destruct tr as [|e tr] using rev_ind; [discriminate|].
  unfold ends_with_line in H. rewrite last_last in H.
  destruct e; [|discriminate]. now exists tr, line.
Qed.

Lemma aborts_from_every_run skip {A} (p : prog A) :
  (forall st, every_run st p (stops_when_given_up skip)) ->
  aborts_on_empty_answer skip p.
Proof.
  intros Hev st ins tr o Hrun Hg. split.
  - intros o' ->. exact (every_run_sound _ _ _ (Hev st) _ _ _ Hrun Hg).
  - destruct (interp_completes st p ins) as (n & tr' & o' & E).
    exists n, tr', o'. split; [exact E|].
    apply (every_run_sound _ _ _ (Hev st) _ _ _ E).
    destruct o as [o0|].
    + rewrite (interp_done_app _ _ _ (repeat Cancel n) _ _ Hrun) in E.
      now injection E as <- _.
    + destruct (interp_pending_app _ _ _ (repeat Cancel n) _ Hrun) as [tr'' Htr].
      rewrite E in Htr. cbn [fst] in Htr. subst tr'.
      rewrite existsb_app, Hg. reflexivity.
Qed.

(** Tactics that follow a program through all its runs. *)
Ltac invert_answer :=
  match goal with
  | H : admissible (text _ _ _) _ _ |- _ =>
      apply admissible_text in H as [[-> ->]|(? & -> & -> & ?)]
  | H : admissible (confirm _ _) _ _ |- _ =>
      apply admissible_confirm in H as [[-> ->]|(? & -> & ->)]
  | H : admissible (select _ _) _ _ |- _ =>
      apply admissible_select in H as [[-> ->]|(? & ? & ? & ? & -> & ->)]
  | H : admissible (checkbox _ _ _) _ _ |- _ =>
      apply admissible_checkbox in H as [[-> ->]|(? & -> & -> & ?)]
  end.

Ltac run_cbn :=
  cbn [every_run bind ask print list_configs select_saved_config negb orb
       truthy truthy_string truthy_list truthy_bool truthy_option].

Ltac run_step :=
  run_cbn;
  match goal with
  | |- forall r a, admissible _ r a -> _ => intros ? ? ?; invert_answer
  | |- every_run _ (if negb (truthy ?s) then _ else _) _ => destruct s
  | |- every_run _ (if negb (truthy ?s) || _ then _ else _) _ => destruct s
  | |- every_run _ (if _ || negb (truthy ?s) then _ else _) _ => destruct s
  | |- every_run _ (if ?b then _ else _) _ => destruct b eqn:?
  | |- every_run _ (match ?x with _ => _ end) _ => destruct x eqn:?
  | |- every_run _ (bind (getitem _ _) _) _ => unfold getitem at 1
  | |- every_run _ (bind (has_get _) _) _ => unfold has_get at 1
  | |- every_run _ (bind (dict_get _ _ _) _) _ => unfold dict_get at 1
  | |- every_run _ (bind (match ?x with _ => _ end) _) _ => destruct x eqn:?
  end.

Ltac settle_stop :=
  run_cbn; unfold stops_when_given_up;
  first [ intros _; apply exit_after_message_intro; reflexivity
        | let H := fresh in
          intros H;
          cbn [existsb gave_up empty_answer negb andb orb
               truthy truthy_string truthy_list] in H;
          discriminate H
        | let H := fresh in intros H; vm_compute in H; discriminate H ].

Ltac runs := repeat (progress run_step).

Lemma get_ticker_aborts : aborts_on_empty_answer nowhere get_ticker.
Proof.
  apply aborts_from_every_run. intros st.
  unfold get_ticker, ticker_question. runs; settle_stop.
Qed.

Lemma get_analysis_date_aborts : aborts_on_empty_answer nowhere get_analysis_date.
Proof.
  apply aborts_from_every_run. intros st.
  unfold get_analysis_date, date_question. runs; settle_stop.
Qed.

Lemma select_analysts_aborts : aborts_on_empty_answer nowhere select_analysts.
Proof.
  apply aborts_from_every_run. intros st.
  unfold select_analysts, analysts_question. run_step; [settle_stop|].
  run_cbn.
  match goal with
  | H : accepted (or_msg (0 <? Z.of_nat (length ?l)) _) = true |- _ =>
      destruct (ticked 0 ((fun '(d, v) => (d, v)) <$> ANALYST_ORDER) x)
        as [|[i a] got] eqn:E; [discriminate H|]
  end.
  run_cbn. unfold stops_when_given_up. intros Hg. discriminate Hg.
Qed.

Lemma select_research_depth_aborts :
  aborts_on_empty_answer nowhere select_research_depth.
Proof.
  apply aborts_from_every_run. intros st.
  unfold select_research_depth, depth_question. runs; settle_stop.
Qed.

Lemma get_custom_openai_config_stops st skip :
  every_run st get_custom_openai_config (stops_when_given_up skip).
Proof.
  unfold get_custom_openai_config, custom_url_question,
    custom_quick_question, custom_deep_question.
  runs; settle_stop.
Qed.

Lemma get_custom_openai_config_aborts :
  aborts_on_empty_answer nowhere get_custom_openai_config.
Proof.
  apply aborts_from_every_run. intros st. apply get_custom_openai_config_stops.
Qed.

Lemma stops_after skip {A} pre tr (o : outcome A) :
  existsb (gave_up skip) pre = false ->
  stops_when_given_up skip tr o -> stops_when_given_up skip (pre ++ tr)%list o.
Proof.
  unfold stops_when_given_up, exit_after_message.
  intros Hpre Hs. rewrite existsb_app, Hpre. cbn [orb]. intros Hg.
  destruct (Hs Hg) as [He (tr' & line & ->)]. split; [exact He|].
  exists (pre ++ tr')%list, line. now rewrite app_assoc.
Qed.

Lemma choose_provider_stops st skip :
  every_run st choose_provider (stops_when_given_up skip).
Proof.
  unfold choose_provider, provider_question.
  runs; try settle_stop.
  eapply every_run_weaken; [|apply (get_custom_openai_config_stops st skip)].
  intros tr o. apply (stops_after skip [_]). reflexivity.
Qed.

Lemma saved_offer_not_counted a :
  gave_up at_saved_offer (Asked (message_of saved_question) a) = false.
Proof.
  cbn [gave_up]. unfold at_saved_offer. rewrite String.eqb_refl.
  apply andb_false_r.
Qed.

Lemma select_llm_provider_aborts :
  aborts_on_empty_answer at_saved_offer select_llm_provider.
Proof.
  apply aborts_from_every_run. intros st.
  assert (Hmenu : forall a,
             every_run st choose_provider (fun tr o =>
               stops_when_given_up at_saved_offer
                 (Asked (message_of saved_question) a :: tr) o)).
  { intros a. eapply every_run_weaken;
      [|apply (choose_provider_stops st at_saved_offer)].
    intros tr o. apply (stops_after at_saved_offer [_]).
    cbn [existsb]. now rewrite saved_offer_not_counted. }
  unfold select_llm_provider, saved_question. runs; try apply Hmenu; try apply choose_provider_stops.
  run_cbn. unfold stops_when_given_up. intros Hg. exfalso. revert Hg.
  match goal with
  | |- existsb _ [Asked _ ?a] = true -> False =>
      change (existsb (gave_up at_saved_offer)
                [Asked (message_of saved_question) a] <> true)
  end.
  cbn [existsb]. now rewrite saved_offer_not_counted.
Qed.

Lemma select_shallow_thinking_agent_aborts OPTIONS cfg info :
  aborts_on_empty_answer nowhere (select_shallow_thinking_agent_with OPTIONS cfg info).
Proof.
  apply aborts_from_every_run. intros st.
  destruct info as [[provider url] metadata].
  unfold select_shallow_thinking_agent_with, model_question. runs; settle_stop.
Qed.

Lemma select_deep_thinking_agent_aborts OPTIONS cfg info :
  aborts_on_empty_answer nowhere (select_deep_thinking_agent_with OPTIONS cfg info).
Proof.
  apply aborts_from_every_run. intros st.
  destruct info as [[provider url] metadata].
  unfold select_deep_thinking_agent_with, model_question. runs; settle_stop.
Qed.

(** C2, as stated, fails for [select_llm_provider]: with saved
    configurations on offer, cancelling the offer (the confirm prompt gives
    back [None]) leads on to the provider menu, and the function returns
    the provider picked there. *)
Lemma cancelled_saved_offer_reaches_menu :
  interp (Store ["saved"] PNone) select_llm_provider [Cancel; Pick 1] =
    ([Asked "Would you like to use a saved configuration?" ANone;
      Asked "Select your LLM Provider:" (APicked 1);
      Printed [Txt "You selected: "; Val (PStr "OpenAI");
               Txt (tab +:+ "URL: "); Val (PStr "https://api.openai.com/v1")]],
     Some (Returned ("OpenAI", "https://api.openai.com/v1",
                     dict_of [("type", PStr "preset")]))) /\
  (aborts_on_empty_answer nowhere select_llm_provider -> False).
Proof.
  assert (E : interp (Store ["saved"] PNone) select_llm_provider [Cancel; Pick 1] =
    ([Asked "Would you like to use a saved configuration?" ANone;
      Asked "Select your LLM Provider:" (APicked 1);
      Printed [Txt "You selected: "; Val (PStr "OpenAI");
               Txt (tab +:+ "URL: "); Val (PStr "https://api.openai.com/v1")]],
     Some (Returned ("OpenAI", "https://api.openai.com/v1",
                     dict_of [("type", PStr "preset")])))) by reflexivity.
  split; [exact E|].
  intros H. destruct (H _ _ _ _ E eq_refl) as [Hexit _].
  destruct (Hexit _ eq_refl) as [(status & Hs & _) _]. discriminate Hs.
Qed.

(** C2, amended.  In each of the eight prompt functions, once a prompt has
    been answered with [None] or a falsy value, the run prints a line and
    leaves with a nonzero status; it never returns a value.  The one prompt
    that is not counted is the offer of a saved configuration in
    [select_llm_provider]: answering it with no, or cancelling it, leads on
    to the provider menu. *)
Theorem prompts_abort_on_empty_answer :
  aborts_on_empty_answer nowhere get_ticker /\
  aborts_on_empty_answer nowhere get_analysis_date /\
  aborts_on_empty_answer nowhere select_analysts /\
  aborts_on_empty_answer nowhere select_research_depth /\
  aborts_on_empty_answer at_saved_offer select_llm_provider /\
  aborts_on_empty_answer nowhere get_custom_openai_config /\
  (forall cfg info,
      aborts_on_empty_answer nowhere (select_shallow_thinking_agent cfg info)) /\
  (forall cfg info,
      aborts_on_empty_answer nowhere (select_deep_thinking_agent cfg info)).
Proof.
  split; [apply get_ticker_aborts|].
  split; [apply get_analysis_date_aborts|].
  split; [apply select_analysts_aborts|].
  split; [apply select_research_depth_aborts|].
  split; [apply select_llm_provider_aborts|].
  split; [apply get_custom_openai_config_aborts|].
  split; intros cfg info.
  - apply select_shallow_thinking_agent_aborts.
  - apply select_deep_thinking_agent_aborts.
Qed.

Lemma prompts_abort_on_empty_answer_witness :
  exit_after_message
    [Asked "Would you like to use a saved configuration?" (ABool false);
     Asked "Select your LLM Provider:" ANone;
     Printed [Txt (nl +:+ "[red]No LLM provider selected. Exiting...[/red]")]]
    (Exited 1 : outcome provider_info).
Proof.
  destruct prompts_abort_on_empty_answer as (_ & _ & _ & _ & H & _).
  destruct (H (Store ["saved"] PNone) [No; Cancel] _ _ eq_refl eq_refl) as [Hexit _].
  exact (Hexit _ eq_refl).
Defined.

(** ** [DEFAULT_CONFIG] *)

Lemma DEFAULT_CONFIG_unfold h :
  DEFAULT_CONFIG h =
    dict_of
      [ ("project_dir", PStr (project_dir_of h));
        ("results_dir", PStr (results_dir_of (environ h)));
        ("data_dir", PStr "/Users/yluo/Documents/Code/ScAI/FR1-data");
        ("data_cache_dir", PStr (join (project_dir_of h) "dataflows/data_cache"));
        ("llm_provider", PStr "openai");
        ("deep_think_llm", PStr "deepseek-r1-250528");
        ("quick_think_llm", PStr "doubao-seed-1-6-flash-250615");
        ("backend_url", PStr "https://ark.cn-beijing.volces.com/api/v3");
        ("max_debate_rounds", PInt 1);
        ("max_risk_discuss_rounds", PInt 1);
        ("max_recur_limit", PInt 1000);
        ("online_tools", PBool true) ].
Proof. reflexivity. Qed.

Lemma DEFAULT_CONFIG_dom h : dom (DEFAULT_CONFIG h) = list_to_set CONFIG_KEYS.
Proof. rewrite DEFAULT_CONFIG_unfold. reflexivity. Qed.

Lemma DEFAULT_CONFIG_with_environ env h :
  DEFAULT_CONFIG (with_environ env h) =
    <["results_dir" := PStr (results_dir_of env)]> (DEFAULT_CONFIG h).
Proof. rewrite !DEFAULT_CONFIG_unfold. reflexivity. Qed.

(** C3.  Whatever the host, [DEFAULT_CONFIG] has exactly the twelve keys
    [project_dir], [results_dir], [data_dir], [data_cache_dir],
    [llm_provider], [deep_think_llm], [quick_think_llm], [backend_url],
    [max_debate_rounds], [max_risk_discuss_rounds], [max_recur_limit] and
    [online_tools], with the values the module gives them; among them
    [llm_provider] is ["openai"], both round limits are 1, the recursion
    limit is 1000 and [online_tools] is [True]. *)
Theorem default_config_entries (h : host) :
  CONFIG_KEYS =
    [ "project_dir"; "results_dir"; "data_dir"; "data_cache_dir";
      "llm_provider"; "deep_think_llm"; "quick_think_llm"; "backend_url";
      "max_debate_rounds"; "max_risk_discuss_rounds"; "max_recur_limit";
      "online_tools" ] /\
  NoDup CONFIG_KEYS /\
  (forall k, is_Some (DEFAULT_CONFIG h !! k) <-> k ∈ CONFIG_KEYS) /\
  size (DEFAULT_CONFIG h) = 12%nat /\
  DEFAULT_CONFIG h !! "project_dir" = Some (PStr (project_dir_of h)) /\
  DEFAULT_CONFIG h !! "results_dir" = Some (PStr (results_dir_of (environ h))) /\
  DEFAULT_CONFIG h !! "data_dir" =
    Some (PStr "/Users/yluo/Documents/Code/ScAI/FR1-data") /\
  DEFAULT_CONFIG h !! "data_cache_dir" =
    Some (PStr (join (project_dir_of h) "dataflows/data_cache")) /\
  DEFAULT_CONFIG h !! "llm_provider" = Some (PStr "openai") /\
  DEFAULT_CONFIG h !! "deep_think_llm" = Some (PStr "deepseek-r1-250528") /\
  DEFAULT_CONFIG h !! "quick_think_llm" =
    Some (PStr "doubao-seed-1-6-flash-250615") /\
  DEFAULT_CONFIG h !! "backend_url" =
    Some (PStr "https://ark.cn-beijing.volces.com/api/v3") /\
  DEFAULT_CONFIG h !! "max_debate_rounds" = Some (PInt 1) /\
  DEFAULT_CONFIG h !! "max_risk_discuss_rounds" = Some (PInt 1) /\
  DEFAULT_CONFIG h !! "max_recur_limit" = Some (PInt 1000) /\
  DEFAULT_CONFIG h !! "online_tools" = Some (PBool true).
Proof.
  split; [reflexivity|].
  split; [apply (bool_decide_unpack _); reflexivity|].
  split.
  { intros k. rewrite <- elem_of_dom, DEFAULT_CONFIG_dom. apply elem_of_list_to_set. }
  rewrite DEFAULT_CONFIG_unfold. repeat split.
Qed.

(** C7.  Evaluating the module looks up one environment variable,
    [TRADINGAGENTS_RESULTS_DIR]; [results_dir] is its value, or
    ["./results"] when it is unset; no other entry changes with the
    environment, and two environments that agree on that variable give the
    same mapping; [data_dir] is a literal absolute path under the home
    directory of one user. *)
Theorem default_config_environment (h : host) :
  env_reads h = ["TRADINGAGENTS_RESULTS_DIR"] /\
  (forall v, environ h !! "TRADINGAGENTS_RESULTS_DIR" = Some v ->
             DEFAULT_CONFIG h !! "results_dir" = Some (PStr v)) /\
  (environ h !! "TRADINGAGENTS_RESULTS_DIR" = None ->
   DEFAULT_CONFIG h !! "results_dir" = Some (PStr "./results")) /\
  (forall env k, k <> "results_dir" ->
                 DEFAULT_CONFIG (with_environ env h) !! k = DEFAULT_CONFIG h !! k) /\
  (forall env,
      env !! "TRADINGAGENTS_RESULTS_DIR" = environ h !! "TRADINGAGENTS_RESULTS_DIR" ->
      DEFAULT_CONFIG (with_environ env h) = DEFAULT_CONFIG h) /\
  DEFAULT_CONFIG h !! "data_dir" =
    Some (PStr "/Users/yluo/Documents/Code/ScAI/FR1-data") /\
  isabs "/Users/yluo/Documents/Code/ScAI/FR1-data" = true /\
  startswith "/Users/yluo/" "/Users/yluo/Documents/Code/ScAI/FR1-data" = true.
Proof.
  split; [reflexivity|].
  split.
  { intros v Hv. rewrite DEFAULT_CONFIG_unfold. unfold results_dir_of.
    rewrite Hv. reflexivity. }
  split.
  { intros Hv. rewrite DEFAULT_CONFIG_unfold. unfold results_dir_of.
    rewrite Hv. reflexivity. }
  split.
  { intros env k Hk. rewrite DEFAULT_CONFIG_with_environ.
    now apply lookup_insert_ne. }
  split.
  { intros env Henv. rewrite !DEFAULT_CONFIG_unfold.
    unfold results_dir_of, with_environ. cbn [environ]. rewrite Henv.
    reflexivity. }
  rewrite DEFAULT_CONFIG_unfold. repeat split.
Qed.

Lemma default_config_environment_witness :
  DEFAULT_CONFIG
      (Host {["TRADINGAGENTS_RESULTS_DIR" := "/tmp/out"]} "/home/u"
            "/app/tradingagents/default_config.py") !! "results_dir" =
    Some (PStr "/tmp/out") /\
  DEFAULT_CONFIG
      (Host ∅ "/home/u" "/app/tradingagents/default_config.py") !! "results_dir" =
    Some (PStr "./results") /\
  DEFAULT_CONFIG
      (with_environ {["HOME" := "/home/u"]}
         (Host ∅ "/" "/app/tradingagents/default_config.py")) !! "project_dir" =
    DEFAULT_CONFIG
      (Host ∅ "/" "/app/tradingagents/default_config.py") !! "project_dir".
Proof.
  split; [|split].
  - apply (proj1 (proj2 (default_config_environment _))). reflexivity.
  - apply (proj1 (proj2 (proj2 (default_config_environment _)))). reflexivity.
  - apply (proj1 (proj2 (proj2 (proj2 (default_config_environment _))))).
    discriminate.
Defined.

(** ** The configuration assembled by [main.py] *)

Lemma setitem_last hp items key value :
  setitem (length hp) key value (hp ++ [items])%list =
    (hp ++ [<[key := value]> items])%list.
Proof.
  unfold setitem.
  rewrite lookup_app_r, Nat.sub_diag by lia. cbn [lookup list_lookup].
  rewrite insert_app_r_alt, Nat.sub_diag by lia. reflexivity.
Qed.

Lemma fold_setitem_last hp kvs items :
  fold_left (fun h kv => setitem (length hp) kv.1 kv.2 h) kvs (hp ++ [items])%list =
    (hp ++ [fold_left (fun d kv => <[kv.1 := kv.2]> d) kvs items])%list.
Proof.
  revert items. induction kvs as [|[k v] kvs IH]; intros items; [reflexivity|].
  cbn [fold_left fst snd]. rewrite setitem_last. apply IH.
Qed.

Lemma main_config_copy d hp items :
  hp !! d = Some items ->
  main_config d hp = (length hp, (hp ++ [overridden_items items])%list).
Proof.
  intros Hd. unfold main_config, assemble, dict_copy. rewrite Hd.
  now rewrite fold_setitem_last.
Qed.

Lemma overridden_items_other items k :
  k ∉ overridden -> overridden_items items !! k = items !! k.
Proof.
  intros Hk. unfold overridden_items, overrides. cbn [fold_left fst snd].
  unfold overridden, overrides in Hk. cbn [fmap list_fmap fst] in Hk.
  rewrite !lookup_insert_ne; [reflexivity|..]; intros <-; apply Hk; set_solver.
Qed.

Lemma overridden_items_assigned items k v :
  (k, v) ∈ overrides -> overridden_items items !! k = Some v.
Proof.
  unfold overrides. rewrite !elem_of_cons, elem_of_nil.
  intros [[= -> ->]|[[= -> ->]|[[= -> ->]|[[= -> ->]|[[= -> ->]|[[= -> ->]|[]]]]]]];
    unfold overridden_items, overrides; cbn [fold_left fst snd];
    repeat (first [ apply lookup_insert_eq
                  | rewrite lookup_insert_ne by discriminate ]).
Qed.

(** C10, as stated, miscounts: lines 6 to 11 of [main.py] assign six keys,
    not five: [llm_provider], [backend_url], [deep_think_llm],
    [quick_think_llm], [max_debate_rounds] and [online_tools]. *)
Lemma main_overrides_are_six :
  overridden =
    [ "llm_provider"; "backend_url"; "deep_think_llm"; "quick_think_llm";
      "max_debate_rounds"; "online_tools" ] /\
  NoDup overridden /\
  length overridden = 6%nat /\
  Nat.eqb (length overridden) 5 = false.
Proof.
  split; [reflexivity|]. split; [apply (bool_decide_unpack _); reflexivity|].
  split; reflexivity.
Qed.

(** C10, amended.  [config = DEFAULT_CONFIG.copy()] binds [config] to a new
    dict object; after the six assignments ([llm_provider], [backend_url],
    [deep_think_llm], [quick_think_llm], [max_debate_rounds],
    [online_tools]) the object bound to [DEFAULT_CONFIG], like every other
    object already in the heap, is unchanged, the copy holds the assigned
    values under the six keys, and every other key of the copy has the
    value it has in [DEFAULT_CONFIG]. *)
Theorem main_config_mutates_a_copy (hp : heap) (DEFAULT_CONFIG : ref)
    (items : gmap string pyval) :
  hp !! DEFAULT_CONFIG = Some items ->
  exists config hp' items',
    main_config DEFAULT_CONFIG hp = (config, hp') /\
    config <> DEFAULT_CONFIG /\
    hp' !! DEFAULT_CONFIG = Some items /\
    (forall r, r <> config -> hp' !! r = hp !! r) /\
    hp' !! config = Some items' /\
    (forall k, k ∉ overridden -> items' !! k = items !! k) /\
    (forall k v, (k, v) ∈ overrides -> items' !! k = Some v) /\
    overridden =
      [ "llm_provider"; "backend_url"; "deep_think_llm"; "quick_think_llm";
        "max_debate_rounds"; "online_tools" ].
Proof.
  intros Hd. pose proof (lookup_lt_Some _ _ _ Hd) as Hlt.
  exists (length hp), (hp ++ [overridden_items items])%list, (overridden_items items).
  split; [now apply main_config_copy|].
  split; [lia|].
  split; [now rewrite lookup_app_l|].
  split.
  { intros r Hr. destruct (decide (r < length hp)%nat) as [Hlt'|Hge].
    - now rewrite lookup_app_l.
    - rewrite lookup_app_r by lia.
      rewrite (lookup_ge_None_2 hp r) by lia.
      destruct (r - length hp)%nat as [|n] eqn:E; [lia|reflexivity]. }
  split; [rewrite lookup_app_r, Nat.sub_diag by lia; reflexivity|].
  split; [apply overridden_items_other|].
  split; [apply overridden_items_assigned|reflexivity].
Qed.

Lemma main_config_mutates_a_copy_witness :
  exists config hp' items',
    main_config 0%nat [dict_of [("llm_provider", PStr "anthropic");
                                ("max_recur_limit", PInt 1000)]] =
      (config, hp') /\
    config <> 0%nat /\
    hp' !! 0%nat = Some (dict_of [("llm_provider", PStr "anthropic");
                                  ("max_recur_limit", PInt 1000)]) /\
    (forall r, r <> config ->
       hp' !! r = [dict_of [("llm_provider", PStr "anthropic");
                            ("max_recur_limit", PInt 1000)]] !! r) /\
    hp' !! config = Some items' /\
    (forall k, k ∉ overridden ->
       items' !! k = dict_of [("llm_provider", PStr "anthropic");
                              ("max_recur_limit", PInt 1000)] !! k) /\
    (forall k v, (k, v) ∈ overrides -> items' !! k = Some v) /\
    overridden =
      [ "llm_provider"; "backend_url"; "deep_think_llm"; "quick_think_llm";
        "max_debate_rounds"; "online_tools" ].
Proof.
  apply (main_config_mutates_a_copy
           [dict_of [("llm_provider", PStr "anthropic");
                     ("max_recur_limit", PInt 1000)]] 0%nat).
  reflexivity.
Defined.

(** With [config = DEFAULT_CONFIG] in place of the copy, the assignments
    would reach the defaults themselves. *)
Lemma aliased_config_mutates_defaults :
  assemble alias 0%nat [dict_of [("llm_provider", PStr "anthropic")]] =
    (0%nat, [overridden_items (dict_of [("llm_provider", PStr "anthropic")])]) /\
  overridden_items (dict_of [("llm_provider", PStr "anthropic")]) !! "llm_provider" =
    Some (PStr "openai").
Proof. split; reflexivity. Qed.

(** On the defaults of the module the six assignments change nothing: each
    assigns the value the key already has. *)
Lemma main_config_equals_defaults h :
  main_config 0%nat [DEFAULT_CONFIG h] = (1%nat, [DEFAULT_CONFIG h; DEFAULT_CONFIG h]).
Proof. rewrite DEFAULT_CONFIG_unfold. reflexivity. Qed.

(** ** Model selection *)




(** The keys of the two lookup tables. *)
Lemma model_tables_keys :
  dom SHALLOW_AGENT_OPTIONS =
    list_to_set ["openai"; "anthropic"; "google"; "openrouter"; "ollama"] /\
  dom DEEP_AGENT_OPTIONS =
    list_to_set ["openai"; "anthropic"; "google"; "openrouter"; "ollama"].
Proof. split; reflexivity. Qed.



(** ** The provider triple *)

Lemma get_custom_openai_config_returns st :
  every_run st get_custom_openai_config (returns_shaped (fun info =>
    exists url quick deep,
      url <> "" /\ quick <> "" /\ deep <> "" /\
      info = ("custom_openai", url,
              dict_of [("type", PStr "custom_openai");
                       ("quick_model", PStr quick);
                       ("deep_model", PStr deep)]))).
Proof.
  unfold get_custom_openai_config, custom_url_question,
    custom_quick_question, custom_deep_question.
  runs; run_cbn; unfold returns_shaped; intros info [= <-].
  eexists _, _, _. repeat split; discriminate.
Qed.

Lemma choose_provider_returns st :
  every_run st choose_provider (returns_shaped provider_shape).
Proof.
  unfold choose_provider, provider_question. cbn [every_run bind ask].
  intros r a [[-> ->]|(n & d & v & Hn & -> & ->)]%admissible_select.
  - run_cbn. unfold returns_shaped. discriminate.
  - unfold BASE_URLS in Hn.
    destruct n as [|[|[|[|[|[|[|n]]]]]]]; cbn [nth_error fmap list_fmap] in Hn;
      [injection Hn as <- <- ..|destruct n; discriminate Hn].
    all: cbn [bind getitem]; unfold getitem.
    all: match goal with
         | |- context [dict_of ?l !! "type"] =>
             change (dict_of l !! "type") with (Some (snd (List.last l ("", PNone))))
         end; cbn [List.last snd bind].
    all: match goal with
         | |- context [eq_str ?v "default"] =>
             let b := eval vm_compute in (eq_str v "default") in
             change (eq_str v "default") with b
         end; cbv iota.
    all: try match goal with
         | |- context [eq_str ?v "custom_openai"] =>
             let b := eval vm_compute in (eq_str v "custom_openai") in
             change (eq_str v "custom_openai") with b
         end; cbv iota.
    all: try (eapply every_run_weaken; [|apply get_custom_openai_config_returns];
              unfold returns_shaped, provider_shape; cbv beta;
              intros tr o H a Ha; right; right; left; exact (H a Ha)).
    all: run_cbn; unfold returns_shaped, provider_shape; intros info [= <-].
    + right; left; reflexivity.
    + right; right; right. eexists _, _. split; [|reflexivity]. set_solver.
    + right; right; right. eexists _, _. split; [|reflexivity]. set_solver.
    + right; right; right. eexists _, _. split; [|reflexivity]. set_solver.
    + right; right; right. eexists _, _. split; [|reflexivity]. set_solver.
    + right; right; right. eexists _, _. split; [|reflexivity]. set_solver.
Qed.

Lemma returns_shaped_after {A} (P : A -> Prop) e tr o :
  returns_shaped P tr o -> returns_shaped P (e :: tr) o.
Proof. exact (fun H => H). Qed.

Lemma select_llm_provider_returns st :
  every_run st select_llm_provider (returns_shaped provider_shape).
Proof.
  unfold select_llm_provider, saved_question. runs.
  all: try apply choose_provider_returns.
  all: try (eapply every_run_weaken; [|apply choose_provider_returns];
            intros tr o; apply returns_shaped_after).
  run_cbn. unfold returns_shaped, provider_shape. intros info [= <-].
  left. eexists. split; [eassumption|reflexivity].
Qed.

Lemma provider_shape_kind label url metadata :
  provider_shape (label, url, metadata) ->
  exists kind, metadata !! "type" = Some (PStr kind) /\ kind ∈ PROVIDER_KINDS.
Proof.
  unfold PROVIDER_KINDS.
  intros [(config & _ & [= _ _ ->])|[[= _ _ ->]|
          [(u & q & d & _ & _ & _ & [= _ _ ->])|(dn & u & _ & [= _ _ ->])]]].
  - exists "saved_config". split; [reflexivity|set_solver].
  - exists "default". split; [reflexivity|set_solver].
  - exists "custom_openai". split; [reflexivity|set_solver].
  - exists "preset". split; [reflexivity|set_solver].
Qed.

(** C8.  Every triple that [select_llm_provider] returns, the ones that
    come from [get_custom_openai_config] and from a saved configuration
    included, is a label, a base URL or sentinel, and a metadata dict whose
    ["type"] entry is one of ["default"], ["preset"], ["custom_openai"] and
    ["saved_config"]; each of the four kinds is returned by some run. *)
Theorem provider_triple_kinds :
  (forall st ins tr label url metadata,
      interp st select_llm_provider ins =
        (tr, Some (Returned (label, url, metadata))) ->
      provider_shape (label, url, metadata) /\
      exists kind,
        metadata !! "type" = Some (PStr kind) /\ kind ∈ PROVIDER_KINDS) /\
  (forall st ins tr label url metadata,
      interp st get_custom_openai_config ins =
        (tr, Some (Returned (label, url, metadata))) ->
      label = "custom_openai" /\
      metadata !! "type" = Some (PStr "custom_openai")) /\
  (forall kind, kind ∈ PROVIDER_KINDS ->
      exists st ins tr label url metadata,
        interp st select_llm_provider ins =
          (tr, Some (Returned (label, url, metadata))) /\
        metadata !! "type" = Some (PStr kind)).
Proof.
  split; [|split].
  - intros st ins tr label url metadata H.
    pose proof (every_run_sound _ _ _ (select_llm_provider_returns st) _ _ _ H
                  _ eq_refl) as Hs.
    split; [exact Hs|]. exact (provider_shape_kind _ _ _ Hs).
  - intros st ins tr label url metadata H.
    destruct (every_run_sound _ _ _ (get_custom_openai_config_returns st) _ _ _ H
                _ eq_refl) as (u & q & d & _ & _ & _ & [= -> _ ->]).
    split; reflexivity.
  - intros kind. unfold PROVIDER_KINDS. rewrite !elem_of_cons, elem_of_nil.
    intros [->|[->|[->|[->|[]]]]].
    + exists (Store [] PNone), [Pick 0]. eexists _, _, _, _. split; reflexivity.
    + exists (Store [] PNone), [Pick 1]. eexists _, _, _, _. split; reflexivity.
    + exists (Store [] PNone), [Pick 2; Enter; Enter; Enter].
      eexists _, _, _, _. split; reflexivity.
    + exists (Store ["saved"] (PDict (dict_of [("llm_provider", PStr "openai")]))), [Yes].
      eexists _, _, _, _. split; reflexivity.
Qed.

Lemma provider_triple_kinds_witness :
  provider_shape
    ("Anthropic", "https://api.anthropic.com/", dict_of [("type", PStr "preset")]) /\
  exists kind,
    dict_of [("type", PStr "preset")] !! "type" = Some (PStr kind) /\
    kind ∈ PROVIDER_KINDS.
Proof.
  apply (proj1 provider_triple_kinds (Store ["saved"] PNone) [No; Pick 3]
           [Asked "Would you like to use a saved configuration?" (ABool false);
            Asked "Select your LLM Provider:" (APicked 3);
            Printed [Txt "You selected: "; Val (PStr "Anthropic");
                     Txt (tab +:+ "URL: "); Val (PStr "https://api.anthropic.com/")]]
           "Anthropic" "https://api.anthropic.com/"
           (dict_of [("type", PStr "preset")])).
  reflexivity.
Defined.

(** ** [select_analysts] *)

Lemma ticked_sublist {V} (choices : list (string * V)) i sel :
  sublist (snd <$> ticked i choices sel) (snd <$> choices).
Proof.
  revert i. induction choices as [|[d v] choices IH]; intros i; cbn [ticked].
  - constructor.
  - destruct (existsb (Nat.eqb i) sel); cbn [fmap list_fmap snd].
    + apply sublist_skip, IH.
    + apply sublist_cons, IH.
Qed.

(** The two ways a run of [select_analysts] ends. *)
Lemma select_analysts_runs st :
  every_run st select_analysts (fun tr o =>
    (exists sel,
        snd <$> ticked 0 ANALYST_ORDER sel <> [] /\
        o = Returned (snd <$> ticked 0 ANALYST_ORDER sel)) \/
    o = Exited 1).
Proof.
  unfold select_analysts, analysts_question. run_step.
  - run_cbn. now right.
  - run_cbn.
    change ((fun '(d, v) => (d, v)) <$> ANALYST_ORDER) with ANALYST_ORDER in *.
    destruct (snd <$> ticked 0 ANALYST_ORDER x) as [|a l] eqn:E;
      [discriminate|].
    run_cbn. left. exists x. now rewrite E.
Qed.

(** C6.  The checklist of [select_analysts] offers the four roles market,
    social, news and fundamentals, in that order; a run that returns gives
    a list that is not empty and is a sublist of the four roles: roles of
    the checklist, in its order, none twice. *)
Theorem select_analysts_nonempty_subset :
  snd <$> ANALYST_ORDER = [MARKET; SOCIAL; NEWS; FUNDAMENTALS] /\
  (exists validate k,
      select_analysts =
        Ask (checkbox "Select Your [Analysts Team]:" ANALYST_ORDER validate) k) /\
  (forall st ins tr l,
      interp st select_analysts ins = (tr, Some (Returned l)) ->
      l <> [] /\
      sublist l [MARKET; SOCIAL; NEWS; FUNDAMENTALS] /\
      NoDup l /\
      (forall a, a ∈ l -> a ∈ snd <$> ANALYST_ORDER)) /\
  (forall st sel rest,
      snd <$> ticked 0 ANALYST_ORDER sel <> [] ->
      snd (interp st select_analysts (Check sel :: rest)) =
        Some (Returned (snd <$> ticked 0 ANALYST_ORDER sel))).
Proof.
  split; [reflexivity|]. split; [eexists _, _; reflexivity|]. split.
  - intros st ins tr l H.
    destruct (every_run_sound _ _ _ (select_analysts_runs st) _ _ _ H)
      as [(sel & Hne & [= ->])|[=]].
    pose proof (ticked_sublist ANALYST_ORDER 0 sel) as Hsub.
    split; [exact Hne|]. split; [exact Hsub|]. split.
    + eapply sublist_NoDup; [|exact Hsub].
      apply (bool_decide_unpack _). reflexivity.
    + intros a Ha. exact (sublist_subseteq _ _ Hsub a Ha).
  - intros st sel rest Hne.
    unfold select_analysts, analysts_question.
    cbn [bind ask interp await react].
    change ((fun '(d, v) => (d, v)) <$> ANALYST_ORDER) with ANALYST_ORDER.
    destruct (snd <$> ticked 0 ANALYST_ORDER sel) as [|a l] eqn:E;
      [contradiction|].
    reflexivity.
Qed.

Lemma select_analysts_nonempty_subset_witness :
  interp (Store [] PNone) select_analysts [Check []; Check [3; 0; 7]%nat] =
    ([Asked "Select Your [Analysts Team]:" (AChecked [0; 3]%nat)],
     Some (Returned [MARKET; FUNDAMENTALS])) /\
  [MARKET; FUNDAMENTALS] <> [] /\
  sublist [MARKET; FUNDAMENTALS] [MARKET; SOCIAL; NEWS; FUNDAMENTALS] /\
  NoDup [MARKET; FUNDAMENTALS] /\
  (forall a, a ∈ [MARKET; FUNDAMENTALS] -> a ∈ snd <$> ANALYST_ORDER).
Proof.
  split; [reflexivity|].
  apply (proj1 (proj2 (proj2 select_analysts_nonempty_subset)) (Store [] PNone)
           [Check []; Check [3; 0; 7]%nat]
           [Asked "Select Your [Analysts Team]:" (AChecked [0; 3]%nat)]).
  reflexivity.
Defined.

(** ** [get_analysis_date] *)

Lemma validate_date_iff date_str :
  validate_date date_str = true <->
  matches_date_pattern date_str /\ parses_as_date date_str.
Proof.
  unfold validate_date, matches_date_pattern, parses_as_date.
  destruct (re_match date_pattern date_str) as [m|]; cbn [truthy truthy_option truthy_match negb].
  - destruct (strptime date_str "%Y-%m-%d") as [e|d]; split.
    + discriminate.
    + intros [_ [d [=]]].
    + intros _. split; [now exists m|now exists d].
    + reflexivity.
  - split; [discriminate|]. intros [[m [=]] _].
Qed.

(** The two ways a run of [get_analysis_date] ends. *)
Lemma get_analysis_date_runs st :
  every_run st get_analysis_date (fun tr o =>
    (exists x, tr = [Asked (message_of date_question) (AStr x)] /\
               validate_date (strip x) = true /\ o = Returned (strip x)) \/
    o = Exited 1).
Proof.
  unfold get_analysis_date, ask, date_question. cbn [bind every_run].
  intros r a [[-> ->]|(x & -> & -> & Hx)]%admissible_text.
  - cbn [bind print every_run]. now right.
  - unfold or_msg in Hx.
    destruct (validate_date (strip x)) eqn:E; [|discriminate].
    destruct x as [|c x]; [discriminate E|].
    cbn [truthy truthy_string negb every_run]. left. now eexists.
Qed.

(** ** Calendar dates in ISO form *)

Lemma isdigit_cases c : isdigit c = true -> In c DIGITS.
Proof.
  destruct c as [[] [] [] [] [] [] [] []]; try discriminate; intros _;
    unfold DIGITS; cbn [In]; tauto.
Qed.

Lemma isdigit_not_space c : isdigit c = true -> isspace c = false.
Proof.
  intros H. apply isdigit_cases in H. cbn [In DIGITS] in H.
  intuition (subst; reflexivity).
Qed.

Lemma digit_of_range c : isdigit c = true -> 0 <= digit_of c <= 9.
Proof.
  intros H. apply isdigit_cases in H. cbn [In DIGITS] in H.
  repeat (destruct H as [<-|H]; [split; apply Z.leb_le; reflexivity|]).
  destruct H.
Qed.

Lemma pattern_iso :
  pattern "%Y-%m-%d" =
    Some (Seq YEAR (Seq (Lit "-") (Seq MONTH (Seq (Lit "-") (Seq DAY Eps))))).
Proof. reflexivity. Qed.

Ltac each_digit H :=
  apply isdigit_cases in H; unfold DIGITS in H; cbn [In] in H;
  repeat (destruct H as [<-|H]); [..|destruct H].

Lemma day_stage c1 c2 tail caps :
  isdigit c1 = true -> isdigit c2 = true ->
  run (Seq DAY Eps) 8 (String c1 (String c2 tail)) caps found =
    if in_1_31 (10 * digit_of c1 + digit_of c2) then
      Some (MatchObj 10 (("d", String c1 (String c2 "")) :: caps))
    else if in_1_9 (digit_of c1) then
      Some (MatchObj 9 (("d", String c1 "") :: caps))
    else None.
Proof.
  intros H1 H2. destruct tail; each_digit H1; each_digit H2; reflexivity.
Qed.

Lemma month_stage c1 c2 r rest caps :
  isdigit c1 = true -> isdigit c2 = true ->
  run (Seq MONTH (Seq (Lit "-") r)) 5
      (String c1 (String c2 (String "-" rest))) caps found =
    if in_1_12 (10 * digit_of c1 + digit_of c2) then
      run r 8 rest (("m", String c1 (String c2 "")) :: caps) found
    else None.
Proof.
  intros H1 H2. each_digit H1; each_digit H2; cbv - [run];
    cbn [run]; cbv - [run];
    try reflexivity;
    match goal with
    | |- match ?X with Some _ => _ | None => _ end = _ => destruct X; reflexivity
    end.
Qed.

Lemma year_stage y1 y2 y3 y4 r rest caps :
  isdigit y1 = true -> isdigit y2 = true -> isdigit y3 = true ->
  isdigit y4 = true ->
  run (Seq YEAR r) 0 (String y1 (String y2 (String y3 (String y4 (String "-" rest)))))
      caps found =
    run r 4 (String "-" rest)
      (("Y", String y1 (String y2 (String y3 (String y4 "")))) :: caps) found.
Proof.
  intros H1 H2 H3 H4. cbn [run YEAR rep]. rewrite H1, H2, H3, H4. reflexivity.
Qed.

Lemma lit_stage {T} c r rest pos caps (k : nat -> string -> _ -> option T) :
  run (Seq (Lit c) r) pos (String c rest) caps k = run r (S pos) rest caps k.
Proof. cbn [run]. now rewrite Ascii.eqb_refl. Qed.

Lemma digits_value_2 c1 c2 :
  isdigit c1 = true -> isdigit c2 = true ->
  digits_value 0 (String c1 (String c2 "")) = Some (10 * digit_of c1 + digit_of c2).
Proof.
  intros H1 H2. cbn [digits_value]. rewrite H1, H2. unfold digit_of.
  f_equal; lia.
Qed.

Lemma digits_value_4 c1 c2 c3 c4 :
  isdigit c1 = true -> isdigit c2 = true -> isdigit c3 = true ->
  isdigit c4 = true ->
  digits_value 0 (String c1 (String c2 (String c3 (String c4 "")))) =
    Some (1000 * digit_of c1 + 100 * digit_of c2 + 10 * digit_of c3 + digit_of c4).
Proof.
  intros H1 H2 H3 H4. cbn [digits_value]. rewrite H1, H2, H3, H4.
  unfold digit_of. f_equal; lia.
Qed.

Lemma int_2 c1 c2 :
  isdigit c1 = true -> isdigit c2 = true ->
  int (String c1 (String c2 "")) = Some (10 * digit_of c1 + digit_of c2).
Proof.
  intros H1 H2. unfold int, strip. cbn [lstrip rstrip].
  rewrite (isdigit_not_space _ H1). cbn [rstrip].
  rewrite (isdigit_not_space _ H2). now apply digits_value_2.
Qed.

Lemma int_4 c1 c2 c3 c4 :
  isdigit c1 = true -> isdigit c2 = true -> isdigit c3 = true ->
  isdigit c4 = true ->
  int (String c1 (String c2 (String c3 (String c4 "")))) =
    Some (1000 * digit_of c1 + 100 * digit_of c2 + 10 * digit_of c3 + digit_of c4).
Proof.
  intros H1 H2 H3 H4. unfold int, strip. cbn [lstrip rstrip].
  rewrite (isdigit_not_space _ H1). cbn [rstrip].
  rewrite (isdigit_not_space _ H4). now apply digits_value_4.
Qed.

(** [strptime] on a string that starts with digits and hyphens in the
    places of [dddd-dd-dd]. *)
Lemma strptime_iso y1 y2 y3 y4 m1 m2 d1 d2 tail :
  isdigit y1 = true -> isdigit y2 = true -> isdigit y3 = true ->
  isdigit y4 = true -> isdigit m1 = true -> isdigit m2 = true ->
  isdigit d1 = true -> isdigit d2 = true ->
  strptime (String y1 (String y2 (String y3 (String y4 (String "-"
             (String m1 (String m2 (String "-" (String d1 (String d2 tail))))))))))
           "%Y-%m-%d" =
    if in_1_12 (two_of m1 m2) then
      if in_1_31 (two_of d1 d2) then
        match tail with
        | EmptyString => date (year_of y1 y2 y3 y4) (two_of m1 m2) (two_of d1 d2)
        | String _ _ => inl "unconverted data remains"
        end
      else if in_1_9 (digit_of d1) then inl "unconverted data remains"
      else inl "time data does not match format"
    else inl "time data does not match format".
Proof.
  intros Hy1 Hy2 Hy3 Hy4 Hm1 Hm2 Hd1 Hd2.
  unfold strptime. rewrite pattern_iso. unfold re_match.
  change (fun pos (_ : string) caps => Some (MatchObj pos caps)) with found.
  rewrite year_stage by assumption.
  rewrite lit_stage, month_stage by assumption. unfold two_of.
  destruct (in_1_12 (10 * digit_of m1 + digit_of m2)); [|reflexivity].
  rewrite day_stage by assumption.
  destruct (in_1_31 (10 * digit_of d1 + digit_of d2)).
  - cbn [m_end String.length]. destruct tail as [|t tail]; cbn [String.length Nat.eqb negb].
    + unfold group_int, group. cbn [m_groups List.find fst snd fmap option_fmap option_map].
      change (String.eqb "d" "Y") with false. change (String.eqb "m" "Y") with false.
      change (String.eqb "Y" "Y") with true. change (String.eqb "d" "m") with false.
      change (String.eqb "m" "m") with true. change (String.eqb "d" "d") with true.
      cbv iota. cbn [fst snd fmap option_fmap option_map].
      rewrite int_4, !int_2 by assumption. reflexivity.
    + reflexivity.
  - destruct (in_1_9 (digit_of d1)); [|reflexivity].
    cbn [m_end String.length Nat.eqb negb]. reflexivity.
Qed.

Lemma days_in_month_le_31 y m : in_1_12 m = true -> days_in_month y m <= 31.
Proof.
  unfold in_1_12. rewrite andb_true_iff, !Z.leb_le. intros [H1 H2].
  unfold days_in_month. destruct ((m =? 2) && is_leap y); [lia|].
  assert (E : exists n, m - 1 = Z.of_nat n /\ (n < 12)%nat)
    by (exists (Z.to_nat (m - 1)); lia).
  destruct E as (n & -> & Hn). rewrite Nat2Z.id.
  do 12 (destruct n as [|n]; [cbn; lia|]). lia.
Qed.

Lemma date_is_valid y m d :
  0 <= y <= 9999 ->
  match date y m d with inr _ => true | inl _ => false end =
    (1 <=? y) && in_1_12 m && (1 <=? d) && (d <=? days_in_month y m).
Proof.
  intros Hy. unfold date, MINYEAR, MAXYEAR, in_1_12.
  replace (y <=? 9999) with true by (symmetry; apply Z.leb_le; lia).
  rewrite andb_true_r.
  destruct (1 <=? y); cbn [negb andb]; [|reflexivity].
  destruct ((1 <=? m) && (m <=? 12)); cbn [negb andb]; [|reflexivity].
  destruct ((1 <=? d) && (d <=? days_in_month y m)); reflexivity.
Qed.

Lemma year_of_range y1 y2 y3 y4 :
  isdigit y1 = true -> isdigit y2 = true -> isdigit y3 = true ->
  isdigit y4 = true -> 0 <= year_of y1 y2 y3 y4 <= 9999.
Proof.
  intros H1%digit_of_range H2%digit_of_range H3%digit_of_range H4%digit_of_range.
  unfold year_of. lia.
Qed.

(** On a string of the form [dddd-dd-dd], [validate_date] checks the
    calendar. *)
Lemma validate_date_iso y1 y2 y3 y4 m1 m2 d1 d2 :
  isdigit y1 = true -> isdigit y2 = true -> isdigit y3 = true ->
  isdigit y4 = true -> isdigit m1 = true -> isdigit m2 = true ->
  isdigit d1 = true -> isdigit d2 = true ->
  match strptime (String y1 (String y2 (String y3 (String y4 (String "-"
             (String m1 (String m2 (String "-" (String d1 (String d2 ""))))))))))
           "%Y-%m-%d" with
  | inr _ => true
  | inl _ => false
  end =
    (1 <=? year_of y1 y2 y3 y4) && in_1_12 (two_of m1 m2)
    && (1 <=? two_of d1 d2)
    && (two_of d1 d2 <=? days_in_month (year_of y1 y2 y3 y4) (two_of m1 m2)).
Proof.
  intros Hy1 Hy2 Hy3 Hy4 Hm1 Hm2 Hd1 Hd2.
  rewrite strptime_iso by assumption.
  destruct (in_1_12 (two_of m1 m2)) eqn:Em;
    [|now rewrite andb_false_r].
  destruct (in_1_31 (two_of d1 d2)) eqn:Ed.
  - rewrite date_is_valid by now apply year_of_range.
    now rewrite Em.
  - assert (E : (1 <=? two_of d1 d2)
                && (two_of d1 d2 <=?
                    days_in_month (year_of y1 y2 y3 y4) (two_of m1 m2)) = false).
    { pose proof (days_in_month_le_31 (year_of y1 y2 y3 y4) _ Em).
      unfold in_1_31 in Ed. apply andb_false_iff.
      apply andb_false_iff in Ed as [Ed|Ed]; [now left|right].
      apply Z.leb_gt. apply Z.leb_gt in Ed. lia. }
    rewrite <- andb_assoc, E, andb_false_r.
    now destruct (in_1_9 (digit_of d1)).
Qed.

Lemma strptime_trailing y1 y2 y3 y4 m1 m2 d1 d2 t tail :
  isdigit y1 = true -> isdigit y2 = true -> isdigit y3 = true ->
  isdigit y4 = true -> isdigit m1 = true -> isdigit m2 = true ->
  isdigit d1 = true -> isdigit d2 = true ->
  match strptime (String y1 (String y2 (String y3 (String y4 (String "-"
             (String m1 (String m2 (String "-" (String d1 (String d2
               (String t tail)))))))))))
           "%Y-%m-%d" with
  | inr _ => true
  | inl _ => false
  end = false.
Proof.
  intros. rewrite strptime_iso by assumption.
  destruct (in_1_12 _); [|reflexivity].
  destruct (in_1_31 _); [reflexivity|]. now destruct (in_1_9 _).
Qed.

Ltac date_tests :=
  repeat (cbn [run cat rep Nat.eqb truthy truthy_option truthy_match negb
               forallb andb];
          match goal with
          | |- context [isdigit ?c] =>
              match goal with
              | H : isdigit c = _ |- _ => rewrite H
              | _ => destruct (isdigit c) eqn:?
              end
          | |- context [Ascii.eqb ?c "-"] =>
              is_var c; destruct (Ascii.eqb_spec c "-"); [subst c|]
          end);
  cbn [run cat rep Nat.eqb truthy truthy_option truthy_match negb
       forallb andb];
  try reflexivity.

(** [validate_date] accepts exactly the strings [YYYY-MM-DD] that name a
    day of the calendar. *)
Lemma validate_date_calendar s : validate_date s = is_calendar_date s.
Proof.
  unfold validate_date, is_calendar_date, iso_fields, re_match, date_pattern.
  do 10 (destruct s as [|? s]; [date_tests|]).
  destruct s as [|t tail].
  - date_tests.
    change (Ascii.eqb "-" "-") with true. cbn [andb].
    change (String.eqb "" "" || String.eqb "" nl) with true. cbv iota.
    now apply validate_date_iso.
  - date_tests.
    destruct (String.eqb (String t tail) "" || String.eqb (String t tail) nl);
      cbn [truthy truthy_option truthy_match negb]; [|reflexivity].
    now apply strptime_trailing.
Qed.



(** Strings that pass one test and fail the other. *)
Lemma validate_date_examples :
  validate_date "2024-02-29" = true /\
  validate_date "2023-02-29" = false /\
  validate_date "2024-13-01" = false /\
  validate_date "0000-01-01" = false /\
  validate_date "2024-1-01" = false /\
  validate_date ("2024-01-01" +:+ nl) = false /\
  is_Some (re_match date_pattern ("2024-01-01" +:+ nl)) /\
  is_Some (re_match date_pattern "2023-02-29") /\
  strptime "2024-1-01" "%Y-%m-%d" = inr (2024, 1, 1) /\
  re_match date_pattern "2024-1-01" = None.
Proof. repeat split; try reflexivity; now eexists. Qed.

(** ** Research depth *)

(** The two ways a run of [select_research_depth] ends. *)
Lemma select_research_depth_runs st :
  every_run st select_research_depth (fun tr o =>
    (exists n d v,
        nth_error DEPTH_OPTIONS n = Some (d, v) /\
        tr = [Asked (message_of depth_question) (APicked n)] /\
        o = Returned v) \/
    (tr = [Asked (message_of depth_question) ANone; Printed no_depth_line] /\
     o = Exited 1)).
Proof.
  unfold select_research_depth, depth_question. cbn [every_run bind ask].
  intros r a [[-> ->]|(n & d & v & Hn & -> & ->)]%admissible_select.
  - cbn [bind print every_run]. now right.
  - cbn [every_run]. left. now exists n, d, v.
Qed.

(** X1.  [select_research_depth] returns 1, 3 or 5 and nothing else: the
    value of the option picked, in the order shallow, medium, deep.  It
    never raises, and it leaves (with status 1, after one line) only when
    the prompt was cancelled. *)
Theorem research_depth_is_an_option :
  (forall st ins tr o,
      interp st select_research_depth ins = (tr, Some o) ->
      (exists v n, o = Returned v /\ (v = 1 \/ v = 3 \/ v = 5) /\
                   tr = [Asked "Select Your [Research Depth]:" (APicked n)]) \/
      (o = Exited 1 /\
       tr = [Asked "Select Your [Research Depth]:" ANone; Printed no_depth_line])) /\
  (forall st rest,
      snd (interp st select_research_depth (Pick 0 :: rest)) = Some (Returned 1) /\
      snd (interp st select_research_depth (Pick 1 :: rest)) = Some (Returned 3) /\
      snd (interp st select_research_depth (Pick 2 :: rest)) = Some (Returned 5) /\
      snd (interp st select_research_depth (Cancel :: rest)) = Some (Exited 1)).
Proof.
  split.
  - intros st ins tr o H.
    destruct (every_run_sound _ _ _ (select_research_depth_runs st) _ _ _ H)
      as [(n & d & v & Hn & -> & ->)|[-> ->]]; [left|now right].
    exists v, n. split; [reflexivity|]. split; [|reflexivity].
    unfold DEPTH_OPTIONS in Hn.
    destruct n as [|[|[|n]]]; cbn [nth_error] in Hn;
      [injection Hn as _ <-; tauto ..|destruct n; discriminate Hn].
  - intros st rest. repeat split.
Qed.

(** ** Prompts with a validator *)

Lemma get_analysis_date_ends st :
  every_run st get_analysis_date (fun tr o =>
    (exists x, tr = [Asked (message_of date_question) (AStr x)] /\
               validate_date (strip x) = true /\ o = Returned (strip x)) \/
    (tr = [Asked (message_of date_question) ANone; Printed no_date_line] /\
     o = Exited 1)).
Proof.
  unfold get_analysis_date, ask, date_question. cbn [bind every_run].
  intros r a [[-> ->]|(x & -> & -> & Hx)]%admissible_text.
  - cbn [bind print every_run]. now right.
  - unfold or_msg in Hx.
    destruct (validate_date (strip x)) eqn:E; [|discriminate].
    destruct x as [|c x]; [discriminate E|].
    cbn [truthy truthy_string negb every_run]. left. now eexists.
Qed.

Lemma select_analysts_ends st :
  every_run st select_analysts (fun tr o =>
    (exists sel,
        snd <$> ticked 0 ANALYST_ORDER sel <> [] /\
        tr = [Asked (message_of analysts_question)
                (AChecked (fst <$> ticked 0 ANALYST_ORDER sel))] /\
        o = Returned (snd <$> ticked 0 ANALYST_ORDER sel)) \/
    (tr = [Asked (message_of analysts_question) ANone; Printed no_analysts_line] /\
     o = Exited 1)).
Proof.
  unfold select_analysts, analysts_question. run_step.
  - run_cbn. now right.
  - run_cbn.
    change ((fun '(d, v) => (d, v)) <$> ANALYST_ORDER) with ANALYST_ORDER in *.
    destruct (snd <$> ticked 0 ANALYST_ORDER x) as [|a l] eqn:E;
      [discriminate|].
    run_cbn. left. exists x. now rewrite E.
Qed.



(** ** Model selection on a preset provider *)

Lemma shallow_preset_runs st OPTIONS cfg provider url metadata options :
  metadata !! "type" = Some (PStr "preset") ->
  OPTIONS !! lower provider = Some options ->
  every_run st
    (select_shallow_thinking_agent_with OPTIONS cfg (provider, url, metadata))
    (picks_a_model "Select Your [Quick-Thinking LLM Engine]:" options
       no_shallow_line).
Proof.
  intros Ht Hk. unfold select_shallow_thinking_agent_with, getitem.
  rewrite Ht. cbn [bind eq_str String.eqb Ascii.eqb Bool.eqb]. rewrite Hk.
  unfold model_question. cbn [every_run bind ask].
  intros r a [[-> ->]|(n & d & v & Hn & -> & ->)]%admissible_select.
  - cbn [every_run]. now right.
  - cbn [every_run]. left. exists n, d, v. repeat split.
    revert Hn. clear. revert n.
    induction options as [|[d' v'] options IH]; intros [|n]; cbn; auto.
Qed.

Lemma deep_preset_runs st OPTIONS cfg provider url metadata options :
  metadata !! "type" = Some (PStr "preset") ->
  OPTIONS !! lower provider = Some options ->
  every_run st
    (select_deep_thinking_agent_with OPTIONS cfg (provider, url, metadata))
    (picks_a_model "Select Your [Deep-Thinking LLM Engine]:" options
       no_deep_line).
Proof.
  intros Ht Hk. unfold select_deep_thinking_agent_with, getitem.
  rewrite Ht. cbn [bind eq_str String.eqb Ascii.eqb Bool.eqb]. rewrite Hk.
  unfold model_question. cbn [every_run bind ask].
  intros r a [[-> ->]|(n & d & v & Hn & -> & ->)]%admissible_select.
  - cbn [every_run]. now right.
  - cbn [every_run]. left. exists n, d, v. repeat split.
    revert Hn. clear. revert n.
    induction options as [|[d' v'] options IH]; intros [|n]; cbn; auto.
Qed.

(** X3.  For a triple of the preset kind whose lowercased provider label is
    a key of the lookup table, each model selection shows one prompt with
    the models listed under that key and returns the model picked, one of
    the table's own; it leaves (status 1, after one line) only when that
    prompt is cancelled, and it reads nothing of [DEFAULT_CONFIG]. *)
Theorem preset_selection_returns_listed_model (st : store) (ins : list input)
    (DEFAULT_CONFIG : gmap string pyval) (provider url : string)
    (metadata : gmap string pyval) :
  metadata !! "type" = Some (PStr "preset") ->
  (forall options tr o,
      SHALLOW_AGENT_OPTIONS !! lower provider = Some options ->
      interp st (select_shallow_thinking_agent DEFAULT_CONFIG
                   (provider, url, metadata)) ins = (tr, Some o) ->
      picks_a_model "Select Your [Quick-Thinking LLM Engine]:" options
        no_shallow_line tr o) /\
  (forall options tr o,
      DEEP_AGENT_OPTIONS !! lower provider = Some options ->
      interp st (select_deep_thinking_agent DEFAULT_CONFIG
                   (provider, url, metadata)) ins = (tr, Some o) ->
      picks_a_model "Select Your [Deep-Thinking LLM Engine]:" options
        no_deep_line tr o).
Proof.
  intros Ht. split; intros options tr o Hk H.
  - exact (every_run_sound _ _ _
             (shallow_preset_runs st _ DEFAULT_CONFIG _ url _ _ Ht Hk) _ _ _ H).
  - exact (every_run_sound _ _ _
             (deep_preset_runs st _ DEFAULT_CONFIG _ url _ _ Ht Hk) _ _ _ H).
Qed.

Lemma preset_selection_returns_listed_model_witness :
  picks_a_model "Select Your [Deep-Thinking LLM Engine]:"
    [("llama3.1 local", "llama3.1"); ("qwen3", "qwen3")] no_deep_line
    [Asked "Select Your [Deep-Thinking LLM Engine]:" (APicked 1)]
    (Returned (PStr "qwen3")).
Proof.
  apply (proj2 (preset_selection_returns_listed_model (Store [] PNone)
                  [Pick 5; Pick 1] ∅ "Ollama" "http://localhost:11434/v1"
                  (dict_of [("type", PStr "preset")]) eq_refl)).
  - reflexivity.
  - reflexivity.
Defined.

(** ** From the provider selection to the model selection *)

Lemma choose_provider_from st :
  every_run st choose_provider (returns_shaped (provider_from st)).
Proof.
  unfold choose_provider, provider_question. cbn [every_run bind ask].
  intros r a [[-> ->]|(n & d & v & Hn & -> & ->)]%admissible_select.
  - run_cbn. unfold returns_shaped. discriminate.
  - unfold BASE_URLS in Hn.
    destruct n as [|[|[|[|[|[|[|n]]]]]]]; cbn [nth_error fmap list_fmap] in Hn;
      [injection Hn as <- <- ..|destruct n; discriminate Hn].
    all: cbn [bind getitem]; unfold getitem.
    all: match goal with
         | |- context [dict_of ?l !! "type"] =>
             change (dict_of l !! "type") with (Some (snd (List.last l ("", PNone))))
         end; cbn [List.last snd bind].
    all: match goal with
         | |- context [eq_str ?v "default"] =>
             let b := eval vm_compute in (eq_str v "default") in
             change (eq_str v "default") with b
         end; cbv iota.
    all: try match goal with
         | |- context [eq_str ?v "custom_openai"] =>
             let b := eval vm_compute in (eq_str v "custom_openai") in
             change (eq_str v "custom_openai") with b
         end; cbv iota.
    all: try (eapply every_run_weaken; [|apply get_custom_openai_config_returns];
              unfold returns_shaped, provider_from; cbv beta;
              intros tr o H a Ha; right; right; left; exact (H a Ha)).
    all: run_cbn; unfold returns_shaped, provider_from; intros info [= <-].
    + right; left; reflexivity.
    + right; right; right. eexists _, _. split; [|reflexivity]. set_solver.
    + right; right; right. eexists _, _. split; [|reflexivity]. set_solver.
    + right; right; right. eexists _, _. split; [|reflexivity]. set_solver.
    + right; right; right. eexists _, _. split; [|reflexivity]. set_solver.
    + right; right; right. eexists _, _. split; [|reflexivity]. set_solver.
Qed.

Lemma select_llm_provider_from st :
  every_run st select_llm_provider (returns_shaped (provider_from st)).
Proof.
  unfold select_llm_provider, saved_question. runs.
  all: try apply choose_provider_from.
  all: try (eapply every_run_weaken; [|apply choose_provider_from];
            intros tr o; apply returns_shaped_after).
  run_cbn. unfold returns_shaped, provider_from. intros info [= <-].
  left. split; [assumption|reflexivity].
Qed.

Lemma preset_keys display url :
  (display, url) ∈ PRESETS ->
  is_Some (SHALLOW_AGENT_OPTIONS !! lower display) /\
  is_Some (DEEP_AGENT_OPTIONS !! lower display).
Proof.
  unfold PRESETS. rewrite !elem_of_cons, elem_of_nil.
  intros [[= -> _]|[[= -> _]|[[= -> _]|[[= -> _]|[[= -> _]|[]]]]]];
    split; eexists; reflexivity.
Qed.

Lemma selects_from_picks message options line tr o :
  picks_a_model message options line tr o ->
  selects_or_cancels message line tr o.
Proof.
  intros [(n & d & m & _ & _ & ->)|H]; [left; eauto|now right].
Qed.



(** ** What the user typed is what the selections return *)





(** ** Normal forms of the text answers *)

Lemma toupper_idem c : toupper (toupper c) = toupper c.
Proof. destruct c as [[] [] [] [] [] [] [] []]; reflexivity. Qed.

Lemma upper_idem s : upper (upper s) = upper s.
Proof.
  induction s as [|c s IH]; [reflexivity|].
  unfold upper in *. cbn [map_chars]. now rewrite toupper_idem, IH.
Qed.

Lemma lstrip_upper s : lstrip (upper s) = upper (lstrip s).
Proof.
  induction s as [|c s IH]; [reflexivity|].
  unfold upper in *. cbn [map_chars lstrip]. rewrite isspace_toupper.
  now destruct (isspace c).
Qed.

Lemma rstrip_upper s : rstrip (upper s) = upper (rstrip s).
Proof.
  induction s as [|c s IH]; [reflexivity|].
  unfold upper in *. cbn [map_chars rstrip]. rewrite IH, isspace_toupper.
  destruct (rstrip s); [destruct (isspace c)|]; reflexivity.
Qed.

Lemma strip_upper s : strip (upper s) = upper (strip s).
Proof. unfold strip. now rewrite lstrip_upper, rstrip_upper. Qed.

Lemma lstrip_id s :
  (forall c, first_char s = Some c -> isspace c = false) -> lstrip s = s.
Proof.
  destruct s as [|c s]; [reflexivity|]. intros H. cbn [lstrip].
  now rewrite (H c eq_refl).
Qed.

Lemma rstrip_id s :
  (forall c, last_char s = Some c -> isspace c = false) -> rstrip s = s.
Proof.
  induction s as [|c s IH]; [reflexivity|]. intros H. cbn [rstrip].
  destruct s as [|c' s].
  - cbn [rstrip]. now rewrite (H c eq_refl).
  - rewrite IH by exact H. reflexivity.
Qed.

Lemma strip_idem s : strip (strip s) = strip s.
Proof.
  unfold strip at 1. rewrite lstrip_id by apply first_char_strip.
  apply rstrip_id, last_char_strip.
Qed.

Lemma append_String c s t : String c s +:+ t = String c (s +:+ t).
Proof. reflexivity. Qed.

Lemma append_empty t : "" +:+ t = t.
Proof. reflexivity. Qed.

Lemma lstrip_spaces w : all_chars isspace w = true -> lstrip w = "".
Proof.
  induction w as [|c w IH]; [reflexivity|]. cbn [all_chars lstrip].
  intros [-> Hw]%andb_prop. now apply IH.
Qed.

Lemma rstrip_spaces w : all_chars isspace w = true -> rstrip w = "".
Proof.
  induction w as [|c w IH]; [reflexivity|]. cbn [all_chars rstrip].
  intros [-> Hw]%andb_prop. now rewrite IH.
Qed.

Lemma lstrip_padded w s : all_chars isspace w = true -> lstrip (w +:+ s) = lstrip s.
Proof.
  induction w as [|c w IH]; [reflexivity|]. cbn [all_chars].
  intros [Hc Hw]%andb_prop. rewrite append_String. cbn [lstrip].
  rewrite Hc. now apply IH.
Qed.

Lemma rstrip_padded s w : all_chars isspace w = true -> rstrip (s +:+ w) = rstrip s.
Proof.
  intros Hw. induction s as [|c s IH]; [now apply rstrip_spaces|].
  rewrite append_String. cbn [rstrip]. now rewrite IH.
Qed.

Lemma strip_padded_right s w : all_chars isspace w = true -> strip (s +:+ w) = strip s.
Proof.
  intros Hw. unfold strip. induction s as [|c s IH].
  - rewrite append_empty. now rewrite (lstrip_spaces _ Hw).
  - rewrite append_String. cbn [lstrip]. destruct (isspace c); [exact IH|].
    exact (rstrip_padded (String c s) w Hw).
Qed.

Lemma strip_padded w1 s w2 :
  all_chars isspace w1 = true -> all_chars isspace w2 = true ->
  strip (w1 +:+ s +:+ w2) = strip s.
Proof.
  intros H1 H2. unfold strip at 1. rewrite lstrip_padded by exact H1.
  exact (strip_padded_right s w2 H2).
Qed.

Lemma is_calendar_date_length s : is_calendar_date s = true -> String.length s = 10%nat.
Proof.
  unfold is_calendar_date, iso_fields.
  repeat (destruct s as [|? s]; [discriminate|]).
  destruct s; [reflexivity|discriminate].
Qed.




(** ** The paths of [DEFAULT_CONFIG] *)

Lemma isabs_String c s : isabs (String c s) = true -> c = sep.
Proof. cbn [isabs]. now intros ->%Ascii.eqb_eq. Qed.

Lemma isabs_append a b : isabs a = true -> isabs (a +:+ b) = true.
Proof. destruct a as [|c a]; [discriminate|]. now rewrite append_String. Qed.

Lemma join_isabs a b : isabs a = true -> isabs (join a b) = true.
Proof.
  intros Ha. unfold join. destruct (isabs b) eqn:Hb; [exact Hb|].
  destruct (negb (truthy a) || endswith_sep a); now apply isabs_append.
Qed.

Lemma prefix_append a b : String.prefix a (a +:+ b) = true.
Proof.
  induction a as [|c a IH]; [now destruct b|].
  rewrite append_String. cbn [String.prefix].
  destruct (ascii_dec c c); [exact IH|contradiction].
Qed.

Lemma join_prefix a b : isabs b = false -> String.prefix a (join a b) = true.
Proof.
  intros Hb. unfold join. rewrite Hb.
  destruct (negb (truthy a) || endswith_sep a); apply prefix_append.
Qed.

Lemma normpath_isabs p : isabs p = true -> isabs (normpath p) = true.
Proof.
  destruct p as [|c p]; [discriminate|]. intros ->%isabs_String.
  unfold normpath. cbn [String.eqb].
  assert (Hs : startswith "/" (String sep p) = true).
  { unfold startswith. cbn [String.prefix].
    destruct (ascii_dec "/" sep); [now destruct p|contradiction]. }
  rewrite Hs.
  destruct (startswith "//" (String sep p) && negb (startswith "///" (String sep p)));
    reflexivity.
Qed.

Lemma abspath_isabs h p :
  isabs (cwd h) = true \/ isabs p = true -> isabs (abspath h p) = true.
Proof.
  intros H. unfold abspath. apply normpath_isabs.
  destruct (isabs p) eqn:Hp; [exact Hp|].
  destruct H as [H|H]; [now apply join_isabs|discriminate].
Qed.

Lemma upto_last_sep_isabs p : isabs p = true -> isabs (upto_last_sep p) = true.
Proof.
  destruct p as [|c p]; [discriminate|]. intros ->%isabs_String.
  cbn [upto_last_sep]. now destruct (upto_last_sep p).
Qed.

Lemma rstrip_sep_empty s : rstrip_sep s = "" -> all_chars (Ascii.eqb sep) s = true.
Proof.
  induction s as [|c s IH]; [reflexivity|]. cbn [rstrip_sep all_chars].
  destruct (rstrip_sep s); [|discriminate].
  destruct (Ascii.eqb c sep) eqn:E; [|discriminate]. intros _.
  rewrite Ascii.eqb_sym, E. now apply IH.
Qed.

Lemma dirname_isabs p : isabs p = true -> isabs (dirname p) = true.
Proof.
  intros Hp%upto_last_sep_isabs. unfold dirname.
  destruct (upto_last_sep p) as [|c head] eqn:E; [discriminate|].
  apply isabs_String in Hp as ->.
  cbn [truthy truthy_string andb].
  destruct (all_chars (Ascii.eqb sep) (String sep head)) eqn:Ha; [reflexivity|].
  cbn [negb rstrip_sep].
  destruct (rstrip_sep head) as [|c r] eqn:Er; [|reflexivity].
  apply rstrip_sep_empty in Er. cbn [all_chars] in Ha. now rewrite Er in Ha.
Qed.

(** X9.  The two computed paths.  When the working directory or the path
    the module was loaded from is absolute, [project_dir] is an absolute
    path.  When the module path is absolute, [project_dir] is the
    normalised directory of the module and the whole of [DEFAULT_CONFIG]
    is the same whatever the working directory.  In every case
    [data_cache_dir] is [project_dir] followed by a path that ends in
    [dataflows/data_cache]. *)
Theorem default_config_paths (h : host) :
  (isabs (cwd h) = true \/ isabs (module_file h) = true ->
   isabs (project_dir_of h) = true /\
   isabs (join (project_dir_of h) "dataflows/data_cache") = true) /\
  (isabs (module_file h) = true ->
   project_dir_of h = normpath (join (dirname (module_file h)) ".") /\
   forall dir,
     DEFAULT_CONFIG (Host (environ h) dir (module_file h)) = DEFAULT_CONFIG h) /\
  DEFAULT_CONFIG h !! "project_dir" = Some (PStr (project_dir_of h)) /\
  DEFAULT_CONFIG h !! "data_cache_dir" =
    Some (PStr (join (project_dir_of h) "dataflows/data_cache")) /\
  startswith (project_dir_of h) (join (project_dir_of h) "dataflows/data_cache") =
    true /\
  (join (project_dir_of h) "dataflows/data_cache" =
     project_dir_of h +:+ "dataflows/data_cache" \/
   join (project_dir_of h) "dataflows/data_cache" =
     project_dir_of h +:+ "/dataflows/data_cache").
Proof.
  assert (Hfile : isabs (module_file h) = true ->
                  forall dir, project_dir_of (Host (environ h) dir (module_file h)) =
                              normpath (join (dirname (module_file h)) ".")).
  { intros Hm dir. unfold project_dir_of, abspath. cbn [module_file cwd].
    now rewrite (join_isabs _ "." (dirname_isabs _ Hm)). }
  split; [|split; [|split; [|split; [|split]]]].
  - intros H. assert (Hp : isabs (project_dir_of h) = true).
    { unfold project_dir_of. destruct H as [H|H].
      - apply abspath_isabs. now left.
      - apply abspath_isabs. right. apply join_isabs. now apply dirname_isabs. }
    split; [exact Hp|]. now apply join_isabs.
  - intros Hm.
    assert (Hh : project_dir_of h = normpath (join (dirname (module_file h)) "."))
      by (destruct h as [env dir file]; exact (Hfile Hm dir)).
    split; [exact Hh|].
    intros dir. rewrite !DEFAULT_CONFIG_unfold. cbn [environ].
    now rewrite (Hfile Hm dir), Hh.
  - now rewrite DEFAULT_CONFIG_unfold.
  - now rewrite DEFAULT_CONFIG_unfold.
  - unfold startswith. now apply join_prefix.
  - unfold join. cbn [isabs Ascii.eqb].
    change (Ascii.eqb "d" sep) with false. cbv iota.
    destruct (negb (truthy (project_dir_of h)) || endswith_sep (project_dir_of h));
      [now left|now right].
Qed.

Lemma default_config_paths_witness :
  isabs (project_dir_of (Host ∅ "/home/u" "tradingagents/default_config.py")) = true /\
  project_dir_of (Host ∅ "/home/u" "/app/tradingagents/default_config.py") =
    "/app/tradingagents" /\
  DEFAULT_CONFIG (Host ∅ "/srv" "/app/tradingagents/default_config.py") =
    DEFAULT_CONFIG (Host ∅ "/home/u" "/app/tradingagents/default_config.py").
Proof.
  split; [|split].
  - apply (proj1 (default_config_paths
                    (Host ∅ "/home/u" "tradingagents/default_config.py"))).
    left. reflexivity.
  - exact (proj1 (proj1 (proj2 (default_config_paths
                    (Host ∅ "/home/u" "/app/tradingagents/default_config.py")))
                  eq_refl)).
  - exact (proj2 (proj1 (proj2 (default_config_paths
                    (Host ∅ "/home/u" "/app/tradingagents/default_config.py")))
                  eq_refl) "/srv").
Defined.

(** ** Model selection on a triple that lacks an entry *)

(** X10.  The subscripts of the model selections raise on a triple that
    lacks what its type promises, before anything is printed or asked: a
    metadata without ["type"] raises [KeyError] for it; the custom kind
    without its model entry, and the default kind with a [DEFAULT_CONFIG]
    that lacks the model key, raise [KeyError] for that key; the saved kind
    raises [KeyError] without ["config"], [AttributeError] when the config
    is not a mapping, and [KeyError] when [DEFAULT_CONFIG] lacks the model
    key, even if the saved configuration has it, since the default handed
    to [get] is evaluated first. *)
Theorem model_selection_missing_entries
    (OPTIONS : gmap string (list (string * string))) (st : store)
    (ins : list input) (DEFAULT_CONFIG : gmap string pyval)
    (provider url : string) (metadata : gmap string pyval) :
  let shallow := interp st (select_shallow_thinking_agent_with OPTIONS
                              DEFAULT_CONFIG (provider, url, metadata)) ins in
  let deep := interp st (select_deep_thinking_agent_with OPTIONS
                           DEFAULT_CONFIG (provider, url, metadata)) ins in
  (metadata !! "type" = None ->
   shallow = ([], Some (Raised (KeyError "type"))) /\
   deep = ([], Some (Raised (KeyError "type")))) /\
  (metadata !! "type" = Some (PStr "custom_openai") ->
   (metadata !! "quick_model" = None ->
    shallow = ([], Some (Raised (KeyError "quick_model")))) /\
   (metadata !! "deep_model" = None ->
    deep = ([], Some (Raised (KeyError "deep_model"))))) /\
  (metadata !! "type" = Some (PStr "default") ->
   (DEFAULT_CONFIG !! "quick_think_llm" = None ->
    shallow = ([], Some (Raised (KeyError "quick_think_llm")))) /\
   (DEFAULT_CONFIG !! "deep_think_llm" = None ->
    deep = ([], Some (Raised (KeyError "deep_think_llm"))))) /\
  (metadata !! "type" = Some (PStr "saved_config") ->
   (metadata !! "config" = None ->
    shallow = ([], Some (Raised (KeyError "config"))) /\
    deep = ([], Some (Raised (KeyError "config")))) /\
   (forall v, metadata !! "config" = Some v ->
              (forall config, v <> PDict config) ->
    shallow = ([], Some (Raised (AttributeError "get"))) /\
    deep = ([], Some (Raised (AttributeError "get")))) /\
   (forall config, metadata !! "config" = Some (PDict config) ->
    (DEFAULT_CONFIG !! "quick_think_llm" = None ->
     shallow = ([], Some (Raised (KeyError "quick_think_llm")))) /\
    (DEFAULT_CONFIG !! "deep_think_llm" = None ->
     deep = ([], Some (Raised (KeyError "deep_think_llm")))))).
Proof.
  intros shallow deep. subst shallow deep.
  unfold select_shallow_thinking_agent_with, select_deep_thinking_agent_with,
    getitem, has_get, dict_get.
  split; [|split; [|split]].
  - intros Ht. rewrite Ht. split; reflexivity.
  - intros Ht. rewrite Ht. split; intros Hm; rewrite Hm; reflexivity.
  - intros Ht. rewrite Ht. split; intros Hm; rewrite Hm; reflexivity.
  - intros Ht. rewrite Ht. split; [|split].
    + intros Hc. rewrite Hc. split; reflexivity.
    + intros v Hc Hv. rewrite Hc.
      destruct v as [| | | |config]; try (split; reflexivity).
      now destruct (Hv config).
    + intros config Hc. rewrite Hc. split; intros Hm; rewrite Hm; reflexivity.
Qed.

Lemma model_selection_missing_entries_witness :
  interp (Store [] PNone)
    (select_shallow_thinking_agent_with SHALLOW_AGENT_OPTIONS ∅
       ("saved_config", "saved_config",
        dict_of [("type", PStr "saved_config");
                 ("config", PDict (dict_of [("quick_think_llm", PStr "gpt-4o")]))]))
    [Pick 0] =
    ([], Some (Raised (KeyError "quick_think_llm"))) /\
  interp (Store [] PNone)
    (select_deep_thinking_agent_with DEEP_AGENT_OPTIONS ∅
       ("saved_config", "saved_config",
        dict_of [("type", PStr "saved_config"); ("config", PStr "fast")]))
    [] =
    ([], Some (Raised (AttributeError "get"))).
Proof.
  split.
  - refine (proj1 (proj2 (proj2 (proj2 (proj2 (proj2
             (model_selection_missing_entries SHALLOW_AGENT_OPTIONS
                (Store [] PNone) [Pick 0] ∅ "saved_config" "saved_config"
                (dict_of [("type", PStr "saved_config");
                          ("config", PDict (dict_of [("quick_think_llm",
                                                      PStr "gpt-4o")]))]))))
             eq_refl)) (dict_of [("quick_think_llm", PStr "gpt-4o")]) eq_refl)
             eq_refl).
  - refine (proj2 (proj1 (proj2 (proj2 (proj2 (proj2
             (model_selection_missing_entries DEEP_AGENT_OPTIONS
                (Store [] PNone) [] ∅ "saved_config" "saved_config"
                (dict_of [("type", PStr "saved_config");
                          ("config", PStr "fast")]))))
             eq_refl)) (PStr "fast") eq_refl _)).
    discriminate.
Defined.



(** ** The saved-configuration offer *)

(** X12.  When the offer of a saved configuration yields none,
    [select_llm_provider] goes on to the provider menu.  With no saved
    configuration listed the offer is not made and the run is that of the
    menu; with some listed, an answer that is declined or cancelled, and
    an accepted offer for which the store hands back nothing, are followed
    by the run of the menu on the remaining input. *)
Theorem declined_offer_leads_to_menu (st : store) :
  (listing st = [] ->
   forall ins, interp st select_llm_provider ins = interp st choose_provider ins) /\
  (listing st <> [] ->
   forall i r a rest,
     react saved_question i = Some (r, a) ->
     truthy r = false \/ truthy (chosen st) = false ->
     interp st select_llm_provider (i :: rest) =
       (Asked "Would you like to use a saved configuration?" a
          :: fst (interp st choose_provider rest),
        snd (interp st choose_provider rest))).
Proof.
  split.
  - intros Hl ins. unfold select_llm_provider, list_configs. cbn [bind interp].
    now rewrite Hl.
  - intros Hl i r a rest Hr Hno.
    unfold select_llm_provider, list_configs, select_saved_config, ask.
    cbn [bind interp]. destruct (listing st) as [|name names]; [contradiction|].
    cbn [truthy truthy_list bind interp await]. rewrite Hr.
    destruct (truthy r) eqn:Er.
    + destruct Hno as [Hno|Hno]; [discriminate|].
      cbn [interp]. rewrite Hno.
      destruct (interp st choose_provider rest) as [tr o]. reflexivity.
    + destruct (interp st choose_provider rest) as [tr o]. reflexivity.
Qed.

Lemma declined_offer_leads_to_menu_witness :
  interp (Store [] PNone) select_llm_provider [Pick 1] =
    interp (Store [] PNone) choose_provider [Pick 1] /\
  interp (Store ["fast"] PNone) select_llm_provider [Yes; Pick 0] =
    (Asked "Would you like to use a saved configuration?" (ABool true)
       :: fst (interp (Store ["fast"] PNone) choose_provider [Pick 0]),
     snd (interp (Store ["fast"] PNone) choose_provider [Pick 0])).
Proof.
  split.
  - exact (proj1 (declined_offer_leads_to_menu (Store [] PNone)) eq_refl [Pick 1]).
  - refine (proj2 (declined_offer_leads_to_menu (Store ["fast"] PNone)) _
              Yes (Some true) (ABool true) [Pick 0] eq_refl (or_intror eq_refl)).
    discriminate.
Defined.

(** ** [main.py] on the defaults of the module *)

Lemma overridden_cases k :
  k ∈ overridden -> exists v, (k, v) ∈ overrides.
Proof.
  unfold overridden. intros ([k' v] & -> & Hin)%list_elem_of_fmap. now exists v.
Qed.

(** X13.  The six assignments of [main.py] are idempotent, and on the
    mapping of [default_config.py] they change nothing: the configuration
    handed to the graph is a new object equal to [DEFAULT_CONFIG], whatever
    the host, and [DEFAULT_CONFIG] itself stays as it was. *)
Theorem main_assignments_restate_defaults (h : host) (hp : heap)
    (DEFAULT_CONFIG : ref) :
  hp !! DEFAULT_CONFIG = Some (DefaultConfig.DEFAULT_CONFIG h) ->
  main_config DEFAULT_CONFIG hp =
    (length hp, (hp ++ [DefaultConfig.DEFAULT_CONFIG h])%list) /\
  length hp <> DEFAULT_CONFIG /\
  (forall items, overridden_items (overridden_items items) = overridden_items items).
Proof.
  intros Hd. split; [|split].
  - assert (He : overridden_items (DefaultConfig.DEFAULT_CONFIG h) =
                 DefaultConfig.DEFAULT_CONFIG h)
      by (rewrite DEFAULT_CONFIG_unfold; reflexivity).
    now rewrite (main_config_copy _ _ _ Hd), He.
  - apply lookup_lt_Some in Hd. lia.
  - intros items. apply map_eq. intros k.
    destruct (decide (k ∈ overridden)) as [Hk|Hk].
    + destruct (overridden_cases k Hk) as [v Hv].
      now rewrite !(overridden_items_assigned _ k v Hv).
    + now rewrite overridden_items_other.
Qed.

Lemma main_assignments_restate_defaults_witness :
  main_config 0%nat
    [DefaultConfig.DEFAULT_CONFIG
       (Host ∅ "/home/u" "/app/tradingagents/default_config.py")] =
    (1%nat,
     [DefaultConfig.DEFAULT_CONFIG
        (Host ∅ "/home/u" "/app/tradingagents/default_config.py");
      DefaultConfig.DEFAULT_CONFIG
        (Host ∅ "/home/u" "/app/tradingagents/default_config.py")]).
Proof.
  exact (proj1 (main_assignments_restate_defaults
                  (Host ∅ "/home/u" "/app/tradingagents/default_config.py")
                  [DefaultConfig.DEFAULT_CONFIG
                     (Host ∅ "/home/u" "/app/tradingagents/default_config.py")]
                  0%nat eq_refl)).
Defined.

(** ** The calendar of the returned date *)

Lemma iso_fields_year s y m d : iso_fields s = Some (y, m, d) -> y <= 9999.
Proof.
  unfold iso_fields.
  do 10 (destruct s as [|? s]; [discriminate|]).
  destruct s; [|discriminate].
  destruct (forallb isdigit _ && _ && _) eqn:E; [|discriminate].
  intros [= <- _ _].
  apply andb_prop in E as [[E _]%andb_prop _].
  cbn [forallb] in E.
  repeat (apply andb_prop in E as [?%digit_of_range E]). lia.
Qed.

Lemma days_in_month_cases y m :
  1 <= m <= 12 ->
  days_in_month y m <= 31 /\
  (m = 4 \/ m = 6 \/ m = 9 \/ m = 11 -> days_in_month y m = 30) /\
  (m = 2 -> days_in_month y m = if is_leap y then 29 else 28).
Proof.
  intros Hm.
  assert (Hc : m = 1 \/ m = 2 \/ m = 3 \/ m = 4 \/ m = 5 \/ m = 6 \/ m = 7 \/
               m = 8 \/ m = 9 \/ m = 10 \/ m = 11 \/ m = 12) by lia.
  unfold days_in_month.
  repeat (destruct Hc as [->|Hc]); try subst m;
    cbv -[is_leap Z.le]; try (destruct (is_leap y));
    (split; [discriminate|split; intros; (reflexivity || lia)]).
Qed.


